(** * Campaign manager of the Discord bot: a shallow embedding

    Source: [src/db/managers/campaign.ts].  The file embeds the campaign
    data model, the filter registry, the budget and statistics updates, the
    weighted pick and the in-memory list update, and proves the properties
    the specification states about them. *)

From Stdlib Require Import QArith Qcanon Qround.
From stdpp Require Import base numbers option list strings gmap fin_maps.

Local Open Scope Z_scope.

(** ** JavaScript numbers

    A JavaScript [number] is an IEEE double.  Finite doubles are idealised
    as exact rationals; the three special values that the division in [pick]
    can produce are kept apart, with the arithmetic and the comparisons
    ECMAScript gives them.  Signed zeros are not distinguished: the only
    divisor in this file is a sum that starts from [+0], which is never
    [-0]. *)

Inductive number : Type :=
  | Fin (q : Qc)
  | PosInf
  | NegInf
  | NaN.

Global Instance number_eq_dec : EqDecision number.
Proof. solve_decision. Defined.

Definition num (z : Z) : number := Fin (Qc_of_Z z).

Definition Qc_ltb (x y : Qc) : bool := bool_decide (x < y)%Qc.
Definition Qc_leb (x y : Qc) : bool := bool_decide (x ≤ y)%Qc.
Definition Qc_eqb (x y : Qc) : bool := bool_decide (x = y).

Definition nneg (x : number) : number :=
  match x with
  | Fin q => Fin (- q)%Qc
  | PosInf => NegInf
  | NegInf => PosInf
  | NaN => NaN
  end.

(** [x + y] *)
Definition nadd (x y : number) : number :=
  match x, y with
  | NaN, _ | _, NaN => NaN
  | Fin a, Fin b => Fin (a + b)%Qc
  | PosInf, NegInf | NegInf, PosInf => NaN
  | PosInf, _ | _, PosInf => PosInf
  | NegInf, _ | _, NegInf => NegInf
  end.

(** [x - y] *)
Definition nsub (x y : number) : number := nadd x (nneg y).

(** The sign of a number: [Some true] positive, [Some false] negative,
    [None] for zero and [NaN]. *)
Definition nsign (x : number) : option bool :=
  match x with
  | Fin q => if Qc_ltb 0 q then Some true else if Qc_ltb q 0 then Some false else None
  | PosInf => Some true
  | NegInf => Some false
  | NaN => None
  end.

Definition inf_of_sign (positive : bool) : number :=
  if positive then PosInf else NegInf.

(** [x * y] *)
Definition nmul (x y : number) : number :=
  match x, y with
  | NaN, _ | _, NaN => NaN
  | Fin a, Fin b => Fin (a * b)%Qc
  | _, _ =>
      match nsign x, nsign y with
      | Some sx, Some sy => inf_of_sign (eqb sx sy)
      | _, _ => NaN
      end
  end.

(** [x / y]; a zero divisor is [+0]. *)
Definition ndiv (x y : number) : number :=
  match x, y with
  | NaN, _ | _, NaN => NaN
  | Fin a, Fin b =>
      if Qc_eqb b 0 then
        match nsign x with
        | Some sx => inf_of_sign sx
        | None => NaN
        end
      else Fin (a / b)%Qc
  | Fin _, _ => Fin 0%Qc
  | _, Fin b => if Qc_ltb b 0 then nneg x else x
  | _, _ => NaN
  end.

(** [Math.round(x)]: the nearest integer, ties towards [+∞]. *)
Definition Math_round (x : number) : number :=
  match x with
  | Fin q => num (Qfloor (q + Q2Qc (1 # 2))%Qc)
  | _ => x
  end.

(** [x > y], [x < y], [x >= y], [x <= y]: all false as soon as one side is
    [NaN]. *)
Definition nlt (x y : number) : bool :=
  match x, y with
  | NaN, _ | _, NaN => false
  | Fin a, Fin b => Qc_ltb a b
  | _, NegInf => false
  | NegInf, _ => true
  | PosInf, _ => false
  | _, PosInf => true
  end.

Definition nle (x y : number) : bool :=
  match x, y with
  | NaN, _ | _, NaN => false
  | Fin a, Fin b => Qc_leb a b
  | NegInf, _ => true
  | _, PosInf => true
  | _, NegInf => false
  | PosInf, _ => false
  end.

Definition ngt (x y : number) : bool := nlt y x.
Definition nge (x y : number) : bool := nle y x.

(** [Math.floor(x)] *)
Definition Math_floor (x : number) : number :=
  match x with
  | Fin q => num (Qfloor q)
  | _ => x
  end.

(** ** JavaScript arrays

    An array is an object: its elements are the properties whose key is an
    index below [length]; any other key is an ordinary property that
    [length], [findIndex], [filter] and [push] do not see. *)

Record JsArray (A : Type) : Type := mkArray {
  items : list A;
  properties : gmap Z A
}.
Arguments mkArray {A} _ _.
Arguments items {A} _.
Arguments properties {A} _.

Definition array_empty {A} : JsArray A := mkArray [] ∅.

Fixpoint findIndex_from {A} (p : A -> bool) (l : list A) (i : Z) : Z :=
  match l with
  | [] => -1
  | x :: rest => if p x then i else findIndex_from p rest (i + 1)
  end.

(** [arr.findIndex(p)]: the first index whose element satisfies [p], or
    [-1]. *)
Definition findIndex {A} (p : A -> bool) (arr : JsArray A) : Z :=
  findIndex_from p (items arr) 0.

(** [arr[i] = v].  An index inside the array replaces the element, the
    index [length] appends; a negative key is not an index and becomes a
    property.  A key beyond [length] (which leaves holes, and which the
    code below never produces) is kept with the properties as well. *)
Definition array_set {A} (arr : JsArray A) (i : Z) (v : A) : JsArray A :=
  if bool_decide (0 ≤ i < Z.of_nat (length (items arr))) then
    mkArray (<[Z.to_nat i := v]> (items arr)) (properties arr)
  else if bool_decide (i = Z.of_nat (length (items arr))) then
    mkArray (items arr ++ [v]) (properties arr)
  else
    mkArray (items arr) (<[i := v]> (properties arr)).

(** [arr.push(v)] *)
Definition array_push {A} (arr : JsArray A) (v : A) : JsArray A :=
  mkArray (items arr ++ [v]) (properties arr).

(** ** Data model *)

Inductive DatabaseCampaignBudgetType : Type := click | view | none.

Global Instance DatabaseCampaignBudgetType_eq_dec :
  EqDecision DatabaseCampaignBudgetType.
Proof. solve_decision. Defined.

Record DatabaseCampaignBudget : Type := mkBudget {
  budget_total : number;                    (* total *)
  budget_used : number;                     (* used *)
  budget_type : DatabaseCampaignBudgetType; (* type *)
  budget_cost : number                      (* cost *)
}.

Inductive DatabaseCampaignLogAction : Type :=
  | updateValue | addBudget | toggle | clearStatisticsAction.

Record DatabaseCampaignLog : Type := mkLog {
  log_action : DatabaseCampaignLogAction;
  log_when : Z;
  log_who : string;
  log_data : option string
}.

(** The names of the members every plain object inherits from
    [Object.prototype]: reading [geo[key]] for one of them finds the
    inherited member when [geo] has no property of its own under the key.
    All are functions, except [__proto__], an accessor whose setter
    ignores numbers and strings. *)
Definition Object_prototype_keys : list string :=
  [ "constructor"; "__defineGetter__"; "__defineSetter__"; "hasOwnProperty";
    "__lookupGetter__"; "__lookupSetter__"; "isPrototypeOf";
    "propertyIsEnumerable"; "toString"; "valueOf"; "__proto__";
    "toLocaleString" ].

(** What a [geo] object holds under a key.  The code means it to be a
    count.  [Text member ones] is the string [geo[country] + 1] yields
    when [geo[country]] is an inherited function: the text JavaScript
    makes of the member [member] of [Object.prototype], followed by [ones]
    times the digit [1]. *)
Inductive GeoValue : Type :=
  | Count (n : Z)
  | Text (member : string) (ones : nat).

(** One of [stats.clicks] and [stats.views].  The counters start at zero
    and move by one, so they are integers. *)
Record StatisticsCounter : Type := mkCounter {
  stat_total : Z;                   (* total *)
  stat_geo : gmap string GeoValue   (* geo *)
}.

Record DatabaseCampaignStatistics : Type := mkStatistics {
  clicks : StatisticsCounter;
  views : StatisticsCounter
}.

(** [keyof DatabaseCampaignStatistics] *)
Inductive StatisticsKey : Type := Clicks | Views.

Record DatabaseCampaignFilterCall : Type := mkCall {
  call_name : string;
  call_data : list string
}.

(** [ChatButton] is declared in [chat/types/button.ts]; the fields are the
    ones [render] reads. *)
Record ChatButton : Type := mkButton {
  button_id : option string;
  button_label : string;
  button_emoji : option string;
  button_url : option string;
  button_disabled : option bool
}.

Record DatabaseCampaignSettings : Type := mkSettings {
  settings_title : string;
  settings_description : string;
  settings_color : option string;
  settings_image : option string;
  settings_thumbnail : option string;
  settings_buttons : option (list ChatButton)
}.

Record DatabaseCampaign : Type := mkCampaign {
  campaign_id : string;                                        (* id *)
  campaign_name : string;                                      (* name *)
  campaign_created : string;                                   (* created *)
  campaign_active : bool;                                      (* active *)
  campaign_budget : DatabaseCampaignBudget;                    (* budget *)
  campaign_logs : list DatabaseCampaignLog;                    (* logs *)
  campaign_members : list string;                              (* members *)
  campaign_filters : option (list DatabaseCampaignFilterCall); (* filters *)
  campaign_link : string;                                      (* link *)
  campaign_settings : DatabaseCampaignSettings;                (* settings *)
  campaign_stats : DatabaseCampaignStatistics                  (* stats *)
}.

(** [Omit<DatabaseCampaign, "stats" | "active" | "id" | "filters" | "created">] *)
Record CreateCampaignOptions : Type := mkOptions {
  options_name : string;
  options_budget : DatabaseCampaignBudget;
  options_logs : list DatabaseCampaignLog;
  options_members : list string;
  options_link : string;
  options_settings : DatabaseCampaignSettings
}.

(** [Partial<DatabaseCampaign>]: every field may be missing. *)
Record PartialCampaign : Type := mkPartial {
  changes_id : option string;
  changes_name : option string;
  changes_created : option string;
  changes_active : option bool;
  changes_budget : option DatabaseCampaignBudget;
  changes_logs : option (list DatabaseCampaignLog);
  changes_members : option (list string);
  changes_filters : option (option (list DatabaseCampaignFilterCall));
  changes_link : option string;
  changes_settings : option DatabaseCampaignSettings;
  changes_stats : option DatabaseCampaignStatistics
}.

Definition no_changes : PartialCampaign :=
  mkPartial None None None None None None None None None None None.

(** [{ ...campaign, ...changes }] *)
Definition spread (campaign : DatabaseCampaign) (changes : PartialCampaign)
  : DatabaseCampaign :=
  {| campaign_id := default (campaign_id campaign) (changes_id changes);
     campaign_name := default (campaign_name campaign) (changes_name changes);
     campaign_created := default (campaign_created campaign) (changes_created changes);
     campaign_active := default (campaign_active campaign) (changes_active changes);
     campaign_budget := default (campaign_budget campaign) (changes_budget changes);
     campaign_logs := default (campaign_logs campaign) (changes_logs changes);
     campaign_members := default (campaign_members campaign) (changes_members changes);
     campaign_filters := default (campaign_filters campaign) (changes_filters changes);
     campaign_link := default (campaign_link campaign) (changes_link changes);
     campaign_settings := default (campaign_settings campaign) (changes_settings changes);
     campaign_stats := default (campaign_stats campaign) (changes_stats changes) |}.

(** The viewer: [DatabaseInfo] carries the user and, inside a server, the
    guild.  [user_language] is what [bot.db.settings.get(db.user,
    "general:language")] yields for this user. *)
Record DatabaseUser : Type := mkUser {
  user_id : string;
  user_country : option string;  (* metadata.country *)
  user_language : string
}.

Record DatabaseGuild : Type := mkGuild {
  guild_tags : option (list string)  (* metadata.tags *)
}.

Record DatabaseInfo : Type := mkInfo {
  info_user : DatabaseUser;           (* user *)
  info_guild : option DatabaseGuild   (* guild *)
}.

(** ** Filters *)

(** What a filter's [execute] hands back at run time: the [tags] filter can
    fall off its end and yield [undefined]. *)
Inductive JsBoolean : Type := JsTrue | JsFalse | JsUndefined.

Definition of_bool (b : bool) : JsBoolean := if b then JsTrue else JsFalse.

(** Truthiness, as [!result] reads it. *)
Definition truthy (v : JsBoolean) : bool :=
  match v with
  | JsTrue => true
  | JsFalse | JsUndefined => false
  end.

(** [data.includes(x)] *)
Definition includes (data : list string) (x : string) : bool :=
  bool_decide (x ∈ data).

Record DatabaseCampaignFilter : Type := mkFilter {
  filter_name : string;
  filter_execute : list string -> DatabaseInfo -> JsBoolean
}.

Definition countries_execute (data : list string) (db : DatabaseInfo) : JsBoolean :=
  match user_country (info_user db) with
  | None => JsFalse
  | Some country =>
      if bool_decide (country = "") then JsFalse
      else of_bool (includes data country)
  end.

Definition tags_execute (data : list string) (db : DatabaseInfo) : JsBoolean :=
  match info_guild db with
  | None => JsFalse
  | Some guild =>
      match guild_tags guild with
      | None => JsFalse
      | Some tags =>
          if existsb (fun t => includes data t) tags then JsTrue
          else JsUndefined
      end
  end.

Definition languages_execute (data : list string) (db : DatabaseInfo) : JsBoolean :=
  let language := user_language (info_user db) in
  of_bool (includes data language).

Definition DatabaseCampaignFilters : list DatabaseCampaignFilter :=
  [ mkFilter "countries" countries_execute;
    mkFilter "tags" tags_execute;
    mkFilter "languages" languages_execute ].

(** ** The processes' state

    [collection] is the ["campaigns"] collection as the database layer
    serves it (cache and database taken together), [app_campaigns] the list
    [AppCampaignManager.campaigns], [metrics] what was sent to the metrics
    manager. *)

Record CampaignsMetric : Type := mkMetric {
  metric_type : StatisticsKey;
  metric_name : string;
  metric_total : Z
}.

Record World : Type := mkWorld {
  collection : gmap string DatabaseCampaign;
  app_campaigns : JsArray DatabaseCampaign;
  metrics : list CampaignsMetric
}.

(** Asynchronous methods thread the state. *)
Definition Async (A : Type) : Type := World -> A * World.

Definition resolve {A} (a : A) : Async A := fun w => (a, w).

Definition bind {A B} (c : Async A) (k : A -> Async B) : Async B :=
  fun w => let (a, w') := c w in k a w'.

Notation "'let*' x ':=' c 'in' k" := (bind c (fun x => k))
  (at level 10, x name, c at level 200, k at level 200).

(** Modelled from the spec: [db.queue.update] is not part of the sources;
    the specification gives it merge semantics ([update(id, partialChanges)
    -> Campaign], "merge semantics, not replace").  The changes are spread
    over the campaign and the result is stored under the campaign's id. *)
Definition queue_update (campaign : DatabaseCampaign) (changes : PartialCampaign)
  : Async DatabaseCampaign :=
  fun w =>
    let updated := spread campaign changes in
    (updated,
     mkWorld (<[campaign_id campaign := updated]> (collection w))
             (app_campaigns w) (metrics w)).

(** Modelled from the spec: [db.createFromCacheOrDatabase] is not part of
    the sources; it stores the record it is given and hands it back. *)
Definition createFromCacheOrDatabase (data : DatabaseCampaign)
  : Async DatabaseCampaign :=
  fun w =>
    (data,
     mkWorld (<[campaign_id data := data]> (collection w))
             (app_campaigns w) (metrics w)).

(** Modelled from the spec: [db.fetchFromCacheOrDatabase] is not part of
    the sources; it looks the id up and yields [null] when it is unknown. *)
Definition fetchFromCacheOrDatabase (id : string) : Async (option DatabaseCampaign) :=
  fun w => (collection w !! id, w).

(** [db.metrics.changeCampaignsMetric] records one event. *)
Definition changeCampaignsMetric (m : CampaignsMetric) : Async unit :=
  fun w => (tt, mkWorld (collection w) (app_campaigns w) (metrics w ++ [m])).

(** [arr.splice(start, deleteCount)], for its effect on the array: a
    negative [start] counts from the end. *)
Definition array_splice {A} (arr : JsArray A) (start deleteCount : Z) : JsArray A :=
  let len := Z.of_nat (length (items arr)) in
  let actualStart :=
    if bool_decide (start < 0) then Z.max (len + start) 0 else Z.min start len in
  let actualDeleteCount := Z.min (Z.max deleteCount 0) (len - actualStart) in
  mkArray (take (Z.to_nat actualStart) (items arr) ++
           drop (Z.to_nat (actualStart + actualDeleteCount)) (items arr))
          (properties arr).

(** A promise settles with a value or with an error. *)
Inductive Outcome (A : Type) : Type :=
  | Resolved (a : A)
  | Rejected (collection_name : string) (raw : string).
Arguments Resolved {A} _.
Arguments Rejected {A} _ _.

(** What [client.from(...).select("*")] answered. *)
Record SelectResponse : Type := mkSelect {
  select_data : option (list DatabaseCampaign);
  select_error : option string
}.

(** Modelled from the spec: [db.delete] is not part of the sources; the
    specification has a deleted campaign removed from the durable store
    ([delete(id) -> void]).  The record kept under the campaign's id is
    dropped. *)
Definition db_delete (campaign : DatabaseCampaign) : Async unit :=
  fun w =>
    (tt, mkWorld (base.delete (campaign_id campaign) (collection w))
                 (app_campaigns w) (metrics w)).

Module AppCampaignManager.

Definition update (campaign : DatabaseCampaign) (changes : PartialCampaign)
  : Async DatabaseCampaign :=
  let* updated := queue_update campaign changes in
  fun w =>
    let index :=
      findIndex (fun c => bool_decide (campaign_id c = campaign_id campaign))
                (app_campaigns w) in
    (updated,
     mkWorld (collection w)
             (array_set (app_campaigns w) index updated)
             (metrics w)).

(** [load], for the answer [response] of the database.  The list is
    emptied before the query is looked at; [db.setCache("campaigns", c.id,
    c)] puts each loaded record in the cache, which [collection] stands
    for together with the database. *)
Definition load (response : SelectResponse) : Async (Outcome (list DatabaseCampaign)) :=
  fun w =>
    let emptied :=
      if bool_decide (0 < length (items (app_campaigns w)))%nat then array_empty
      else app_campaigns w in
    match select_error response with
    | Some raw =>
        (Rejected "campaigns" raw, mkWorld (collection w) emptied (metrics w))
    | None =>
        match select_data response with
        | None | Some [] =>
            (Resolved [], mkWorld (collection w) emptied (metrics w))
        | Some campaigns =>
            (Resolved campaigns,
             mkWorld (fold_left (fun cache c => <[campaign_id c := c]> cache)
                                campaigns (collection w))
                     (mkArray campaigns ∅)
                     (metrics w))
        end
    end.

Definition setup (response : SelectResponse) : Async (Outcome unit) :=
  let* loaded := load response in
  resolve (match loaded with
           | Resolved _ => Resolved tt
           | Rejected name raw => Rejected name raw
           end).

End AppCampaignManager.

(** [Partial<DatabaseCampaignStatistics["clicks"]>] *)
Record CounterUpdates : Type := mkUpdates {
  updates_total : option Z;
  updates_geo : option (gmap string GeoValue)
}.

(** The bounds [start] and [end] of the walk in [pick]. *)
Record Interval : Type := mkInterval {
  interval_start : number;
  interval_end : number
}.

Record DisplayCampaign : Type := mkDisplay {
  display_db : DatabaseCampaign;
  display_title : string;
  display_description : string;
  display_footer : string
}.

(** What [ad] settles with: [null], the rendered campaign, or the error
    of a builder in [render]. *)
Inductive AdResponse : Type :=
  | AdNone
  | AdShown (display : DisplayCampaign)
  | AdThrown.

Record InteractionHandlerRunOptions : Type := mkRunOptions {
  run_action : string;      (* data.action *)
  run_raw : list string;    (* raw *)
  run_db : DatabaseInfo     (* db *)
}.

Record Response : Type := mkResponse {
  response_url : string;
  response_label : string;
  response_ephemeral : bool
}.

Inductive InteractionHandlerResponse : Type :=
  | NoResponse                (* [return;] and falling off the end *)
  | Replied (r : Response)
  | Thrown.                   (* [new URL(link)] rejected the link *)

Module ClusterCampaignManager.

Definition stats_of (type : StatisticsKey) (stats : DatabaseCampaignStatistics)
  : StatisticsCounter :=
  match type with Clicks => clicks stats | Views => views stats end.

(** [{ ...stats, [type]: counter }] *)
Definition stats_with (type : StatisticsKey) (counter : StatisticsCounter)
  (stats : DatabaseCampaignStatistics) : DatabaseCampaignStatistics :=
  match type with
  | Clicks => mkStatistics counter (views stats)
  | Views => mkStatistics (clicks stats) counter
  end.

Definition all : Async (list DatabaseCampaign) :=
  fun w => (items (app_campaigns w), w).

Definition get (id : string) : Async (option DatabaseCampaign) :=
  fetchFromCacheOrDatabase id.

(** [id] is what [randomUUID()] returned and [now] what
    [new Date().toISOString()] returned. *)
Definition create (id now : string) (options : CreateCampaignOptions)
  : Async DatabaseCampaign :=
  let data :=
    {| campaign_filters := None; campaign_created := now; campaign_id := id;
       campaign_name := options_name options;
       campaign_budget := options_budget options;
       campaign_logs := options_logs options;
       campaign_members := options_members options;
       campaign_link := options_link options;
       campaign_settings := options_settings options;
       campaign_active := false;
       campaign_stats :=
         mkStatistics (mkCounter 0 ∅) (mkCounter 0 ∅) |} in
  let* campaign := createFromCacheOrDatabase data in
  fun w =>
    (campaign,
     mkWorld (collection w) (array_push (app_campaigns w) campaign) (metrics w)).

Definition update (campaign : DatabaseCampaign) (changes : PartialCampaign)
  : Async DatabaseCampaign :=
  AppCampaignManager.update campaign changes.

Definition with_stats (stats : DatabaseCampaignStatistics) : PartialCampaign :=
  mkPartial None None None None None None None None None None (Some stats).

Definition with_budget (budget : DatabaseCampaignBudget) : PartialCampaign :=
  mkPartial None None None None (Some budget) None None None None None None.

Definition with_logs (logs : list DatabaseCampaignLog) : PartialCampaign :=
  mkPartial None None None None None (Some logs) None None None None None.

Definition clearStatistics (campaign : DatabaseCampaign) : Async DatabaseCampaign :=
  update campaign
    (with_stats (mkStatistics (mkCounter 0 ∅) (mkCounter 0 ∅))).

Definition updateStatistics (campaign : DatabaseCampaign) (type : StatisticsKey)
  (updates : CounterUpdates) : Async DatabaseCampaign :=
  let old := stats_of type (campaign_stats campaign) in
  let updated :=
    stats_with type
      {| stat_total := default (stat_total old) (updates_total updates);
         stat_geo := default ∅ (updates_geo updates) ∪ stat_geo old |}
      (campaign_stats campaign) in
  update campaign (with_stats updated).

(** [geo[country]] is read through the prototype chain: a country that
    names a member of [Object.prototype] finds that member, which is
    truthy, unless [geo] has the key itself; the sum is then a string.
    The assignment [updates.geo["__proto__"] = ...] stores nothing. *)
Definition incrementStatistic (campaign : DatabaseCampaign) (type : StatisticsKey)
  (db : DatabaseInfo) : Async DatabaseCampaign :=
  let old := stats_of type (campaign_stats campaign) in
  let total := stat_total old + 1 in
  let geo :=
    match user_country (info_user db) with
    | Some country =>
        let value :=
          match stat_geo old !! country with
          | Some (Count n) => if bool_decide (n = 0) then Count 1 else Count (n + 1)
          | Some (Text member ones) => Text member (S ones)
          | None =>
              if bool_decide (country ∈ Object_prototype_keys) then Text country 1
              else Count 1
          end in
        if bool_decide (country = "__proto__") then ∅
        else {[ country := value ]}
    | None => ∅
    end in
  let* _ := changeCampaignsMetric (mkMetric type (campaign_name campaign) total) in
  updateStatistics campaign type (mkUpdates (Some total) (Some geo)).

Definition incrementUsage (campaign : DatabaseCampaign)
  (type : DatabaseCampaignBudgetType) : Async DatabaseCampaign :=
  if bool_decide (budget_type (campaign_budget campaign) ≠ type) then resolve campaign
  else
    let budget := campaign_budget campaign in
    let updated := nadd (budget_used budget) (ndiv (budget_cost budget) (num 1000)) in
    update campaign
      (with_budget
         (mkBudget (budget_total budget) updated (budget_type budget)
                   (budget_cost budget))).

(** [when] is what [Date.now()] returned. *)
Definition log (campaign : DatabaseCampaign) (action : DatabaseCampaignLogAction)
  (user : string) (when : Z) (data : option string) : Async DatabaseCampaign :=
  let updated := campaign_logs campaign ++ [mkLog action when user data] in
  update campaign (with_logs updated).

Definition available (campaign : DatabaseCampaign) : bool :=
  nge (budget_total (campaign_budget campaign))
      (budget_used (campaign_budget campaign)).

Fixpoint executeFilters_loop (calls : list DatabaseCampaignFilterCall)
  (db : DatabaseInfo) : bool :=
  match calls with
  | [] => true
  | call :: rest =>
      match find (fun f => bool_decide (filter_name f = call_name call))
                 DatabaseCampaignFilters with
      | None => executeFilters_loop rest db
      | Some filter =>
          let result := filter_execute filter (call_data call) db in
          if negb (truthy result) then false
          else executeFilters_loop rest db
      end
  end.

Definition executeFilters (campaign : DatabaseCampaign) (db : DatabaseInfo) : bool :=
  match campaign_filters campaign with
  | None => true
  | Some [] => true
  | Some calls => executeFilters_loop calls db
  end.

(** The raw share of line 371 and the two adjustments of lines 374-375,
    named for the statements below. *)
Definition share (totalBudget : number) (campaign : DatabaseCampaign) : number :=
  Math_round
    (nmul (ndiv (budget_total (campaign_budget campaign)) totalBudget) (num 100)).

Definition clamp (percent : number) : number :=
  let percent :=
    if ngt percent (num 20) then nsub (num 20) (nsub percent (num 20))
    else percent in
  let percent :=
    if nlt percent (num 5) then nadd (num 5) (nsub (num 10) percent)
    else percent in
  percent.

(** One turn of the [for] loop of [pick]: the bounds after it, and
    whether the campaign was chosen ([break]). *)
Definition iteration (totalBudget random : number) (campaign : DatabaseCampaign)
  (bounds : Interval) : Interval * bool :=
  let start := interval_start bounds in
  let percent :=
    Math_round
      (nmul (ndiv (budget_total (campaign_budget campaign)) totalBudget)
            (num 100)) in
  let end_ := nadd (interval_end bounds) percent in
  let percent :=
    if ngt percent (num 20) then nsub (num 20) (nsub percent (num 20))
    else percent in
  let percent :=
    if nlt percent (num 5) then nadd (num 5) (nsub (num 10) percent)
    else percent in
  if ngt random start && nle random end_ then (mkInterval start end_, true)
  else (mkInterval (nadd start percent) end_, false).

Fixpoint loop (totalBudget random : number) (sorted : list DatabaseCampaign)
  (bounds : Interval) : option DatabaseCampaign :=
  match sorted with
  | [] => None
  | campaign :: rest =>
      let (bounds', chosen) := iteration totalBudget random campaign bounds in
      if chosen then Some campaign
      else loop totalBudget random rest bounds'
  end.


Definition eligible (db : DatabaseInfo) (c : DatabaseCampaign) : bool :=
  campaign_active c && available c && executeFilters c db.

Definition totalBudget_of (sorted : list DatabaseCampaign) : number :=
  fold_left (fun previous campaign =>
               nadd previous (budget_total (campaign_budget campaign)))
            sorted (num 0).

(** [Math.floor(Math.random() * 100) + 1], for the value [rand] that
    [Math.random()] returned. *)
Definition random_of (rand : Qc) : number :=
  nadd (Math_floor (nmul (Fin rand) (num 100))) (num 1).

(** The synchronous part of [pick], on the list [all()] resolved to. *)
Definition pick_from (campaigns : list DatabaseCampaign) (db : DatabaseInfo)
  (rand : Qc) : option DatabaseCampaign :=
  let sorted := List.filter (eligible db) campaigns in
  let totalBudget := totalBudget_of sorted in
  let random := random_of rand in
  loop totalBudget random sorted (mkInterval (num 0) (num 0)).

Definition pick (db : DatabaseInfo) (rand : Qc) : Async (option DatabaseCampaign) :=
  let* campaigns := all in
  resolve (pick_from campaigns db rand).

Section Rendering.

(** Whether the builders of discord.js accept what [render] hands them
    for this campaign (title, description, colour, image and thumbnail of
    the embed, labels, ids and links of the buttons); they throw when
    they do not.  The library is outside the sources. *)
Variable builders_accept : DatabaseCampaign -> bool.

(** [render] builds the embed and the buttons; the model keeps the
    campaign and the embed's texts.  [None] stands for a builder that
    threw. *)
Definition render (campaign : DatabaseCampaign) (preview : bool)
  (db : DatabaseInfo) : option DisplayCampaign :=
  if builders_accept campaign then
    Some {| display_db := campaign;
            display_title := settings_title (campaign_settings campaign);
            display_description := settings_description (campaign_settings campaign);
            display_footer :=
              if preview then "This is a preview of your advertisement."
              else "This is a sponsored advertisement." |}
  else None.

Definition ad (db : DatabaseInfo) (rand : Qc) : Async AdResponse :=
  let* campaign := pick db rand in
  match campaign with
  | None => resolve AdNone
  | Some campaign =>
      let* campaign := incrementStatistic campaign Views db in
      let* campaign := incrementUsage campaign view in
      match render campaign false db with
      | Some display => resolve (AdShown display)
      | None => resolve AdThrown
      end
  end.

End Rendering.

Definition url (campaign : DatabaseCampaign) (db : DatabaseInfo) : string :=
  "https://l.turing.sh/" +:+ campaign_id campaign +:+ "/" +:+ user_id (info_user db).

Section Interaction.

(** [new URL(link).hostname], [None] when the constructor throws, and
    the handler of the [campaigns] command, both outside the sources. *)
Variable hostname : string -> option string.
Variable command_handleInteraction :
  InteractionHandlerRunOptions -> Async InteractionHandlerResponse.

(** [raw[1]] is the campaign's id, as [render] puts it in the button's
    custom id; without it nothing is found. *)
Definition handleInteraction (options : InteractionHandlerRunOptions)
  : Async InteractionHandlerResponse :=
  let action := run_action options in
  if bool_decide (action = "link") then
    let db := run_db options in
    let raw := run_raw options in
    let* campaign :=
      match raw !! 1%nat with
      | Some id => get id
      | None => resolve None
      end in
    match campaign with
    | None => resolve NoResponse
    | Some campaign =>
        let* campaign := incrementUsage campaign click in
        let url := url campaign db in
        match hostname (campaign_link campaign) with
        | None => resolve Thrown
        | Some domain => resolve (Replied (mkResponse url domain true))
        end
    end
  else if bool_decide (action = "ui") then
    command_handleInteraction options
  else resolve NoResponse.

End Interaction.

Definition refresh (response : SelectResponse) : Async (Outcome (list DatabaseCampaign)) :=
  AppCampaignManager.load response.

Definition delete (campaign : DatabaseCampaign) : Async unit :=
  let* _ :=
    (fun w =>
       let index :=
         findIndex (fun c => bool_decide (campaign_id c = campaign_id campaign))
                   (app_campaigns w) in
       (tt, mkWorld (collection w)
                    (array_splice (app_campaigns w) index 1)
                    (metrics w))) in
  db_delete campaign.

End ClusterCampaignManager.

(** ** Image models and ratios ([image/manager.ts], [image/types/model.ts]) *)

Inductive ImageAPIPath : Type := path_sdxl | path_kandinsky | path_sh | path_anything.

(** [Partial<ImageGenerationBody>]: the type is declared outside the
    sources; the fields are the ones the configurations set. *)
Record ImageGenerationBody : Type := mkBody {
  body_model : option string;
  body_width : option Z;
  body_height : option Z
}.

Record ImageConfigModelSettings : Type := mkConfigSettings {
  config_modifyResolution : option bool
}.

Record ImageConfigModel : Type := mkConfigModel {
  config_name : string;
  config_id : string;
  config_description : string;
  config_settings : option ImageConfigModelSettings;
  config_tags : option (list string);
  config_path : ImageAPIPath;
  config_body : option ImageGenerationBody
}.

Record ImageGenerationSize : Type := mkSize {
  size_width : Z;
  size_height : Z
}.

(** The settings object the constructor of [ImageModelManager] builds. *)
Record ImageModelSettings : Type := mkModelSettings {
  settings_random : bool;
  settings_forcedSize : option ImageGenerationSize;
  settings_baseSize : option ImageGenerationSize;
  settings_modifyResolution : option bool
}.

Record ImageModel : Type := mkModel {
  model_name : string;
  model_id : string;
  model_description : string;
  model_settings : ImageModelSettings;
  model_tags : list string;
  model_path : ImageAPIPath;
  model_body : ImageGenerationBody
}.

Definition ImageConfigModels : list ImageConfigModel :=
  [ mkConfigModel "Kandinsky" "kandinsky" "Multi-lingual latent diffusion model"
      None None path_kandinsky None;
    mkConfigModel "SDXL" "sdxl" "Latest Stable Diffusion model"
      (Some (mkConfigSettings (Some false))) None path_sh
      (Some (mkBody (Some "SDXL_beta::stability.ai#6901") (Some 1024) (Some 1024)));
    mkConfigModel "Project Unreal Engine 5" "ue5"
      "Trained to look like Unreal Engine 5 renders"
      None None path_sh (Some (mkBody (Some "stable_diffusion") None None));
    mkConfigModel "I Can't Believe It's Not Photography" "icbinp"
      "Highly photo-realistic Stable Diffusion model"
      None None path_sh
      (Some (mkBody (Some "ICBINP - I Can't Believe It's Not Photography") None None));
    mkConfigModel "Anything Diffusion" "anything-diffusion"
      "Stable Diffusion-based model for generating anime"
      None (Some ["anime"; "booru"]) path_sh
      (Some (mkBody (Some "Anything Diffusion") None None)) ].

Module ImageModelManager.

(** The mapping of the constructor: [{ body: {}, tags: [], ...m, settings:
    { random: false, forcedSize: null, baseSize: null, ...m.settings } }]. *)
Definition construct_model (m : ImageConfigModel) : ImageModel :=
  {| model_body := default (mkBody None None None) (config_body m);
     model_tags := default [] (config_tags m);
     model_name := config_name m;
     model_id := config_id m;
     model_description := config_description m;
     model_path := config_path m;
     model_settings :=
       {| settings_random := false;
          settings_forcedSize := None;
          settings_baseSize := None;
          settings_modifyResolution :=
            match config_settings m with
            | Some settings => config_modifyResolution settings
            | None => None
            end |} |}.

(** [this.models] of a manager constructed over the given configurations;
    the code constructs it over [ImageConfigModels]. *)
Definition construct (configs : list ImageConfigModel) : list ImageModel :=
  map construct_model configs.

Definition all (models : list ImageModel) : list ImageModel := models.

(** [this.models[0]], [undefined] on an empty list. *)
Definition default_model (models : list ImageModel) : option ImageModel :=
  models !! 0%nat.

(** [get(id)]: [None] stands for [throw new Error("Invalid model")]. *)
Definition get (models : list ImageModel) (id : string) : option ImageModel :=
  find (fun m => bool_decide (model_id m = id)) models.

End ImageModelManager.

Record ImageGenerationRatio : Type := mkRatio {
  ratio_a : number;
  ratio_b : number
}.

(** The character [:] (code 58). *)
Definition colon : Ascii.ascii := Ascii.ascii_of_nat 58.

(** [ratio.split(":")] *)
Fixpoint split_colon (s : string) : list string :=
  match s with
  | EmptyString => [EmptyString]
  | String c rest =>
      let parts := split_colon rest in
      if Ascii.eqb c colon then EmptyString :: parts
      else
        match parts with
        | part :: others => String c part :: others
        | [] => [String c EmptyString]
        end
  end.

(** [!x] for a number that may be [undefined]: zero, [NaN] and [undefined]
    are falsy. *)
Definition falsy_number (x : option number) : bool :=
  match x with
  | None => true
  | Some (Fin q) => Qc_eqb q 0
  | Some NaN => true
  | Some _ => false
  end.

(** [isNaN(x)] *)
Definition isNaN (x : option number) : bool :=
  match x with
  | None | Some NaN => true
  | Some _ => false
  end.

Module ImageManager.

Section Ratio.

(** The conversion [Number] of a string to a number. *)
Variable Number : string -> number.

Definition validRatio (ratio : string) (max : number) : option ImageGenerationRatio :=
  let parts := map Number (split_colon ratio) in
  let a := parts !! 0%nat in
  let b := parts !! 1%nat in
  if falsy_number a || falsy_number b || isNaN a || isNaN b then None
  else
    match a, b with
    | Some a, Some b =>
        if nle a (num 0) || nle b (num 0) || ngt (ndiv a b) max || ngt (ndiv b a) max
        then None
        else Some (mkRatio a b)
    | _, _ => None
    end.

End Ratio.

End ImageManager.

(** ** Image descriptions ([image/description.ts]) *)

(** [ImageOCRResult] is declared in [util/ocr.ts]; the fields are the ones
    [run] and [drawOverlay] read. *)
Record OCRWord : Type := mkWord {
  word_left : Z;
  word_top : Z;
  word_width : Z;
  word_height : Z
}.

Record ImageOCRResult : Type := mkOCR {
  ocr_content : string;
  ocr_lines : list (list OCRWord)
}.

Record ImageBuffer : Type := mkImageBuffer {
  buffer_bytes : string   (* buffer *)
}.

Record ImageDescriptionResult : Type := mkDescriptionResult {
  result_description : string;
  result_ocr : option ImageOCRResult
}.

Record DatabaseDescription : Type := mkDescription {
  description_id : string;
  description_duration : number;
  description_when : string;
  description_result : ImageDescriptionResult
}.

Record DescribeAttachment : Type := mkAttachment {
  attachment_name : option string;
  attachment_url : string
}.

Record ImageDescriptionOptions : Type := mkDescribeOptions {
  describe_input : DescribeAttachment;
  describe_buffer : option ImageBuffer;
  describe_cached : option bool
}.

(** [DatabaseDescription & { cached: boolean, cost: number | null }] *)
Record Described : Type := mkDescribed {
  described : DatabaseDescription;
  described_cached : bool;
  described_cost : option number
}.

(** The requests [describe] sends out of the process, in the order of its
    [await]s. *)
Inductive ExternalCall : Type :=
  | FetchBuffer (url : string)
  | FetchDescription (hash : string)
  | DetectText (url : string)
  | Blip2 (url : string)
  | UploadDescription (id : string)
  | UpdateDescription (id : string).

Module ImageDescriptionManager.

Section Services.

(** The answers of the services [describe] calls; [None] is a [null]
    buffer for [fetchBuffer], an unknown hash for [fetchDescription] and a
    rejected promise for [detectText] and [blip2].  [blip2] answers with
    the duration and the captions, [updateImageDescription] with whether
    it resolved, [now] is [new Date().toISOString()]. *)
Variable fetchBuffer : string -> option ImageBuffer.
Variable md5 : ImageBuffer -> string.
Variable fetchDescription : string -> option DatabaseDescription.
Variable detectText : string -> option (option ImageOCRResult).
Variable blip2 : string -> option (number * list string).
Variable updateImageDescription : string -> DatabaseDescription -> bool.
Variable now : string.

(** [describe]: the requests made and the value the promise resolves to,
    [None] when it rejects. *)
Definition describe (options : ImageDescriptionOptions)
  : list ExternalCall * option Described :=
  let cached := default true (describe_cached options) in
  let input := describe_input options in
  let '(calls, buffer) :=
    match describe_buffer options with
    | Some buffer => ([], Some buffer)
    | None => ([FetchBuffer (attachment_url input)], fetchBuffer (attachment_url input))
    end in
  match buffer with
  | None => (calls, None)
  | Some buffer =>
      let hash := md5 buffer in
      let '(calls, entry) :=
        if cached then (calls ++ [FetchDescription hash], fetchDescription hash)
        else (calls, None) in
      match entry with
      | Some entry => (calls, Some (mkDescribed entry true None))
      | None =>
          let ocr :=
            match detectText (attachment_url input) with
            | Some ocr => ocr
            | None => None
            end in
          let url := attachment_url input in
          let calls := calls ++ [DetectText (attachment_url input); Blip2 url] in
          match blip2 url with
          | None => (calls, None)
          | Some (duration, []) => (calls, None)
          | Some (duration, caption :: _) =>
              let result :=
                mkDescription hash duration now (mkDescriptionResult caption ocr) in
              let calls :=
                calls ++ [UploadDescription (description_id result);
                          UpdateDescription (description_id result)] in
              if updateImageDescription (description_id result) result then
                (calls,
                 Some (mkDescribed result false
                         (Some (nmul duration (Fin (Q2Qc (4 # 10000)))))))
              else (calls, None)
          end
      end
  end.

End Services.

End ImageDescriptionManager.

Import ClusterCampaignManager.

(** ** Sample data *)

Definition no_statistics : DatabaseCampaignStatistics :=
  mkStatistics (mkCounter 0 ∅) (mkCounter 0 ∅).

Definition sample_settings : DatabaseCampaignSettings :=
  mkSettings "Title" "Description" None None None None.

Definition sample_campaign (id : string) (total used : Z)
  (type : DatabaseCampaignBudgetType) : DatabaseCampaign :=
  mkCampaign id id "2023-07-01T00:00:00.000Z" true
    (mkBudget (num total) (num used) type (num 500))
    [] [] None "https://example.org/" sample_settings no_statistics.

Definition sample_viewer : DatabaseInfo :=
  mkInfo (mkUser "1001" (Some "DE") "en") None.

(** The scenario of the specification: budgets 10, 10 and 80. *)
Definition sample_pool : list DatabaseCampaign :=
  [ sample_campaign "a" 10 0 view;
    sample_campaign "b" 10 0 view;
    sample_campaign "c" 80 0 view ].

(** A state whose collection and in-memory list hold the given campaigns. *)
Definition world_of (campaigns : list DatabaseCampaign) : World :=
  mkWorld (list_to_map (map (fun c => (campaign_id c, c)) campaigns))
          (mkArray campaigns ∅) [].


Definition other_key (type : StatisticsKey) : StatisticsKey :=
  match type with Clicks => Views | Views => Clicks end.

(** A campaign that targets two countries and whose budget is used up
    exactly. *)
Definition targeted_campaign : DatabaseCampaign :=
  mkCampaign "t" "t" "2023-07-01T00:00:00.000Z" true
    (mkBudget (num 10) (num 10) view (num 500))
    [] [] (Some [mkCall "countries" ["DE"; "FR"]; mkCall "unknown" []])
    "https://example.org/" sample_settings no_statistics.

Definition gaming_viewer : DatabaseInfo :=
  mkInfo (mkUser "1001" (Some "DE") "en") (Some (mkGuild (Some ["gaming"; "art"]))).

Definition tagged_campaign (tags : list string) : DatabaseCampaign :=
  mkCampaign "t" "t" "2023-07-01T00:00:00.000Z" true
    (mkBudget (num 10) (num 0) view (num 500))
    [] [] (Some [mkCall "tags" tags])
    "https://example.org/" sample_settings no_statistics.

Definition anonymous_viewer : DatabaseInfo :=
  mkInfo (mkUser "1002" None "en") None.

(** A campaign billed per click, at its ceiling. *)
Definition spent_campaign : DatabaseCampaign := sample_campaign "s" 10 10 click.


Definition imported_draft : CreateCampaignOptions :=
  mkOptions "Imported" (mkBudget (num 100) (num 0) view (num 500))
    [mkLog addBudget 1688169600000 "1001" None] ["1001"]
    "https://example.org/" sample_settings.

Definition link_options (id : string) : InteractionHandlerRunOptions :=
  mkRunOptions "link" ["link"; id] sample_viewer.

Definition sample_hostname (link : string) : option string :=
  if bool_decide (link = "https://example.org/") then Some "example.org" else None.

Definition no_command (options : InteractionHandlerRunOptions)
  : Async InteractionHandlerResponse := resolve NoResponse.

(** [Number] on the strings of the examples: unsigned decimal numerals,
    the empty string (zero) and ["Infinity"]; any other string is taken
    to [NaN]. *)
Definition digit_of (c : Ascii.ascii) : option Z :=
  let n := Z.of_nat (Ascii.nat_of_ascii c) in
  if bool_decide (48 <= n <= 57) then Some (n - 48) else None.

Fixpoint decimal_from (s : string) (acc : Z) : option Z :=
  match s with
  | EmptyString => Some acc
  | String c rest =>
      match digit_of c with
      | Some d => decimal_from rest (10 * acc + d)
      | None => None
      end
  end.

Definition sample_Number (s : string) : number :=
  if bool_decide (s = "Infinity") then PosInf
  else
    match decimal_from s 0 with
    | Some z => num z
    | None => NaN
    end.

(** Sample answers of the services of [describe]. *)
Definition sample_buffer : ImageBuffer := mkImageBuffer "PNG-bytes".

Definition sample_md5 (buffer : ImageBuffer) : string :=
  "md5-of-" +:+ buffer_bytes buffer.

Definition sample_entry : DatabaseDescription :=
  mkDescription "md5-of-PNG-bytes" (num 1200) "2023-07-01T00:00:00.000Z"
    (mkDescriptionResult "a red bicycle" None).

Definition sample_blip2 (url : string) : option (number * list string) :=
  Some (num 2500, ["a cat on a sofa"; "a cat"]).

Definition sample_attachment : DescribeAttachment :=
  mkAttachment None "https://cdn.example.org/cat.png".

(** The request [describe] pays for. *)
Definition paid_request (call : ExternalCall) : bool :=
  match call with
  | Blip2 _ => true
  | _ => false
  end.

Definition sample_fetchDescription (hash : string) : option DatabaseDescription :=
  if bool_decide (hash = "md5-of-PNG-bytes") then Some sample_entry else None.

Definition no_buffer (url : string) : option ImageBuffer := None.

Definition no_text (url : string) : option (option ImageOCRResult) := None.

Definition update_resolves (id : string) (result : DatabaseDescription) : bool := true.

Definition sample_describe (options : ImageDescriptionOptions)
  : list ExternalCall * option Described :=
  ImageDescriptionManager.describe no_buffer sample_md5 sample_fetchDescription
    no_text sample_blip2 update_resolves "2023-07-02T00:00:00.000Z" options.

Definition broken_campaign : DatabaseCampaign :=
  mkCampaign "k" "k" "2023-07-01T00:00:00.000Z" true
    (mkBudget (num 10) (num 0) click (num 500))
    [] [] None "not a link" sample_settings no_statistics.


(** Builders that accept every campaign, as they do for the sample
    settings, and builders that accept none. *)
Definition builders_accept_all (campaign : DatabaseCampaign) : bool := true.

Definition builders_accept_none (campaign : DatabaseCampaign) : bool := false.


(** Equality of two closed numbers. *)
Ltac number_eq :=
  vm_compute;
  first [ reflexivity
        | apply (f_equal Fin); apply Qc_is_canon; vm_compute; reflexivity ].

(** ** Numbers *)

Lemma Fin_eq (a b : Qc) : (this a == this b)%Q -> Fin a = Fin b.
Proof. intros H. f_equal. apply Qc_is_canon. exact H. Qed.



Lemma Qc_eqb_true (a b : Qc) : Qc_eqb a b = true <-> a = b.
Proof. unfold Qc_eqb. apply bool_decide_eq_true. Qed.

Lemma Qc_leb_true (a b : Qc) : Qc_leb a b = true <-> (a ≤ b)%Qc.
Proof. unfold Qc_leb. apply bool_decide_eq_true. Qed.

Lemma Qc_ltb_true (a b : Qc) : Qc_ltb a b = true <-> (a < b)%Qc.
Proof. unfold Qc_ltb. apply bool_decide_eq_true. Qed.


Lemma Qc_of_Z_1000_nonzero : Qc_eqb (Qc_of_Z 1000) 0 = false.
Proof. vm_compute. reflexivity. Qed.

Lemma ndiv_1000 (k : Qc) :
  ndiv (Fin k) (num 1000) = Fin (k / Qc_of_Z 1000)%Qc.
Proof. unfold ndiv, num. rewrite Qc_of_Z_1000_nonzero. reflexivity. Qed.

Example Math_round_half : Math_round (Fin (Q2Qc (5 # 2))) = num 3.
Proof. number_eq. Qed.

Example Math_round_negative_half : Math_round (Fin (Q2Qc (- 1 # 2))) = num 0.
Proof. number_eq. Qed.

Example ndiv_zero_zero : ndiv (num 0) (num 0) = NaN.
Proof. reflexivity. Qed.

Example ndiv_positive_zero : ndiv (num 5) (num 0) = PosInf.
Proof. reflexivity. Qed.

Example comparisons_with_NaN :
  nlt (num 1) NaN = false /\ ngt (num 1) NaN = false /\ nle NaN NaN = false.
Proof. repeat split. Qed.

(** ** The walk of [pick] *)

Lemma iteration_share_clamp (totalBudget random : number)
  (campaign : DatabaseCampaign) (bounds : Interval) :
  iteration totalBudget random campaign bounds =
    let percent := share totalBudget campaign in
    let end_ := nadd (interval_end bounds) percent in
    if ngt random (interval_start bounds) && nle random end_
    then (mkInterval (interval_start bounds) end_, true)
    else (mkInterval (nadd (interval_start bounds) (clamp percent)) end_, false).
Proof. reflexivity. Qed.

(** C1, as amended.  In one turn of the walk the bound [end] grows by the
    raw rounded share, the value [percent] has before the two adjustments
    ([end += percent] stands before them); [start] grows by the adjusted
    value when the campaign is not chosen, and stays when it is. *)
Theorem iteration_extends_by_raw_share (totalBudget random : number)
  (campaign : DatabaseCampaign) (bounds : Interval) :
  let result := iteration totalBudget random campaign bounds in
  interval_end (fst result) =
    nadd (interval_end bounds) (share totalBudget campaign) /\
  (snd result = false ->
   interval_start (fst result) =
     nadd (interval_start bounds) (clamp (share totalBudget campaign))) /\
  (snd result = true -> interval_start (fst result) = interval_start bounds).
Proof.
  cbv zeta. rewrite iteration_share_clamp. cbv zeta.
  destruct (ngt random (interval_start bounds) &&
            nle random (nadd (interval_end bounds) (share totalBudget campaign)));
    simpl; repeat split; intros; congruence.
Qed.

Lemma iteration_extends_by_raw_share_witness :
  let c := sample_campaign "c" 80 0 view in
  let result := iteration (num 100) (num 90) c (mkInterval (num 0) (num 0)) in
  snd result = false /\
  interval_end (fst result) = nadd (num 0) (share (num 100) c) /\
  interval_start (fst result) = nadd (num 0) (clamp (share (num 100) c)).
Proof.
  intros c result.
  destruct (iteration_extends_by_raw_share (num 100) (num 90) c
              (mkInterval (num 0) (num 0))) as (Hend & Hstart & _).
  assert (Hlost : snd result = false) by (vm_compute; reflexivity).
  split; [exact Hlost|]. split; [exact Hend | exact (Hstart Hlost)].
Defined.

(** C1, as stated, fails.  Third campaign of the sample pool, share 80 of
    100, bounds at 20 and 20: [end] becomes 100, not 20 plus the adjusted
    value 55. *)
Lemma iteration_end_not_clamped :
  let c := sample_campaign "c" 80 0 view in
  let bounds := mkInterval (num 20) (num 20) in
  clamp (share (num 100) c) = num 55 /\
  interval_end (fst (iteration (num 100) (num 50) c bounds)) = num 100 /\
  interval_end (fst (iteration (num 100) (num 50) c bounds)) <>
    nadd (interval_end bounds) (clamp (share (num 100) c)).
Proof.
  cbv zeta. split; [number_eq|]. split; [number_eq|].
  intros H. apply (f_equal (fun x => bool_decide (x = num 100))) in H.
  vm_compute in H. discriminate H.
Qed.

Lemma loop_Some_In (totalBudget random : number) (sorted : list DatabaseCampaign) :
  forall bounds c, loop totalBudget random sorted bounds = Some c -> In c sorted.
Proof.
  induction sorted as [|campaign rest IH]; intros bounds c; simpl.
  - discriminate.
  - destruct (iteration totalBudget random campaign bounds) as [bounds' chosen].
    destruct chosen.
    + intros [= ->]. now left.
    + intros H. right. eapply IH, H.
Qed.








Lemma pick_unfold (db : DatabaseInfo) (rand : Qc) (w : World) :
  pick db rand w = (pick_from (items (app_campaigns w)) db rand, w).
Proof. reflexivity. Qed.




(** ** Filters *)

Lemma truthy_true (v : JsBoolean) : truthy v = true <-> v = JsTrue.
Proof. destruct v; simpl; split; congruence. Qed.

Lemma includes_true (data : list string) (x : string) :
  includes data x = true <-> x ∈ data.
Proof. unfold includes. apply bool_decide_eq_true. Qed.

Lemma executeFilters_loop_true (calls : list DatabaseCampaignFilterCall)
  (db : DatabaseInfo) :
  executeFilters_loop calls db = true ->
  forall call filter,
    In call calls ->
    find (fun f => bool_decide (filter_name f = call_name call))
         DatabaseCampaignFilters = Some filter ->
    filter_execute filter (call_data call) db = JsTrue.
Proof.
  induction calls as [|first rest IH]; intros Hloop call filter Hin Hfind.
  - destruct Hin.
  - cbn [executeFilters_loop] in Hloop.
    destruct Hin as [<- | Hin].
    + rewrite Hfind in Hloop.
      destruct (truthy (filter_execute filter (call_data first) db)) eqn:Ht;
        [now apply truthy_true | discriminate Hloop].
    + apply IH; [|exact Hin|exact Hfind].
      destruct (find (fun f => bool_decide (filter_name f = call_name first))
                     DatabaseCampaignFilters) as [f|]; [|exact Hloop].
      destruct (negb (truthy (filter_execute f (call_data first) db)));
        [discriminate Hloop | exact Hloop].
Qed.

Lemma executeFilters_true (campaign : DatabaseCampaign) (db : DatabaseInfo) :
  executeFilters campaign db = true ->
  forall calls call filter,
    campaign_filters campaign = Some calls ->
    In call calls ->
    find (fun f => bool_decide (filter_name f = call_name call))
         DatabaseCampaignFilters = Some filter ->
    filter_execute filter (call_data call) db = JsTrue.
Proof.
  unfold executeFilters. intros H calls call filter Hcalls Hin Hfind.
  rewrite Hcalls in H. destruct calls as [|first rest]; [destruct Hin|].
  eapply executeFilters_loop_true; eauto.
Qed.

(** C6.  A campaign that [pick] returns is one of the listed campaigns and
    is eligible: it is active, [budget.total >= budget.used] holds, and
    every call of its filter list whose name is registered evaluates to
    [true] for the viewer.  A campaign whose budget is used up exactly is
    available. *)
Theorem pick_returns_eligible (db : DatabaseInfo) (rand : Qc) (w : World)
  (c : DatabaseCampaign) :
  (fst (pick db rand w) = Some c ->
   In c (items (app_campaigns w)) /\
   campaign_active c = true /\
   nge (budget_total (campaign_budget c)) (budget_used (campaign_budget c)) = true /\
   (forall calls call filter,
      campaign_filters c = Some calls ->
      In call calls ->
      find (fun f => bool_decide (filter_name f = call_name call))
           DatabaseCampaignFilters = Some filter ->
      filter_execute filter (call_data call) db = JsTrue)) /\
  (forall q : Qc,
     budget_total (campaign_budget c) = Fin q ->
     budget_used (campaign_budget c) = Fin q ->
     available c = true).
Proof.
  split.
  - rewrite pick_unfold. simpl. unfold pick_from. intros H.
    apply loop_Some_In in H. apply filter_In in H as [Hin Hel].
    unfold eligible in Hel.
    apply andb_prop in Hel as [Hel Hfilters]. apply andb_prop in Hel as [Hact Hav].
    repeat split; try assumption.
    intros calls call filter. now apply executeFilters_true.
  - intros q Ht Hu. unfold available, nge. rewrite Ht, Hu. simpl.
    apply Qc_leb_true. apply Qcle_refl.
Qed.

Lemma pick_returns_eligible_witness :
  fst (pick sample_viewer (Q2Qc 0) (world_of [targeted_campaign])) =
    Some targeted_campaign /\
  campaign_active targeted_campaign = true /\
  nge (budget_total (campaign_budget targeted_campaign))
      (budget_used (campaign_budget targeted_campaign)) = true /\
  filter_execute (mkFilter "countries" countries_execute) ["DE"; "FR"]
    sample_viewer = JsTrue /\
  available targeted_campaign = true.
Proof.
  assert (Hpick : fst (pick sample_viewer (Q2Qc 0) (world_of [targeted_campaign])) =
                  Some targeted_campaign) by (vm_compute; reflexivity).
  destruct (pick_returns_eligible sample_viewer (Q2Qc 0)
              (world_of [targeted_campaign]) targeted_campaign) as [Hel Hboundary].
  destruct (Hel Hpick) as (_ & Hact & Hav & Hfilters).
  split; [exact Hpick|]. split; [exact Hact|]. split; [exact Hav|]. split.
  - apply (Hfilters _ (mkCall "countries" ["DE"; "FR"]) _ eq_refl);
      [now left | reflexivity].
  - apply (Hboundary (Qc_of_Z 10)); reflexivity.
Defined.

Lemma find_tags :
  find (fun f => bool_decide (filter_name f = "tags")) DatabaseCampaignFilters =
    Some (mkFilter "tags" tags_execute).
Proof. reflexivity. Qed.

Lemma existsb_includes (data tags : list string) :
  existsb (fun t => includes data t) tags = true <->
  exists t, t ∈ tags /\ t ∈ data.
Proof.
  rewrite existsb_exists. split; intros (t & Ht & Hd); exists t.
  - split; [now apply list_elem_of_In | now apply includes_true].
  - split; [now apply list_elem_of_In | now apply includes_true].
Qed.

Lemma executeFilters_loop_false (calls : list DatabaseCampaignFilterCall)
  (db : DatabaseInfo) (call : DatabaseCampaignFilterCall)
  (filter : DatabaseCampaignFilter) :
  In call calls ->
  find (fun f => bool_decide (filter_name f = call_name call))
       DatabaseCampaignFilters = Some filter ->
  truthy (filter_execute filter (call_data call) db) = false ->
  executeFilters_loop calls db = false.
Proof.
  intros Hin Hfind Hfalse.
  induction calls as [|first rest IH]; [destruct Hin|].
  cbn [executeFilters_loop]. destruct Hin as [-> | Hin].
  - rewrite Hfind, Hfalse. reflexivity.
  - destruct (find (fun f => bool_decide (filter_name f = call_name first))
                   DatabaseCampaignFilters) as [f|]; [|now apply IH].
    destruct (negb (truthy (filter_execute f (call_data first) db)));
      [reflexivity | now apply IH].
Qed.

(** C5.  The [tags] filter yields [true] exactly when the viewer's guild
    exists, has tags, and one of them is in the supplied list; it yields
    [false] when the guild or its tags are missing; and when the guild's
    tags share nothing with the list it yields [undefined], which
    [executeFilters] reads as a failed filter: a campaign that calls
    [tags] with this list does not match. *)
Theorem tags_filter_matches (data : list string) (db : DatabaseInfo) :
  (tags_execute data db = JsTrue <->
   exists guild tags,
     info_guild db = Some guild /\ guild_tags guild = Some tags /\
     exists t, t ∈ tags /\ t ∈ data) /\
  (info_guild db = None \/
   (exists guild, info_guild db = Some guild /\ guild_tags guild = None) ->
   tags_execute data db = JsFalse) /\
  (forall guild tags,
     info_guild db = Some guild -> guild_tags guild = Some tags ->
     (forall t, t ∈ tags -> t ∉ data) ->
     tags_execute data db = JsUndefined /\
     forall campaign calls,
       campaign_filters campaign = Some calls ->
       In (mkCall "tags" data) calls ->
       executeFilters campaign db = false).
Proof.
  split; [|split].
  - unfold tags_execute. split.
    + destruct (info_guild db) as [guild|]; [|discriminate].
      destruct (guild_tags guild) as [tags|] eqn:Htags; [|discriminate].
      destruct (existsb _ tags) eqn:Hex; [|discriminate].
      intros _. exists guild, tags. repeat split; try assumption.
      now apply existsb_includes.
    + intros (guild & tags & -> & -> & Hshared).
      apply existsb_includes in Hshared. now rewrite Hshared.
  - unfold tags_execute. intros [-> | (guild & -> & ->)]; reflexivity.
  - intros guild tags Hguild Htags Hdisjoint.
    assert (Hundef : tags_execute data db = JsUndefined).
    { unfold tags_execute. rewrite Hguild, Htags.
      destruct (existsb _ tags) eqn:Hex; [|reflexivity].
      apply existsb_includes in Hex as (t & Ht & Hd).
      destruct (Hdisjoint t Ht Hd). }
    split; [exact Hundef|].
    intros campaign calls Hcalls Hin. unfold executeFilters. rewrite Hcalls.
    destruct calls as [|first rest]; [destruct Hin|].
    apply (executeFilters_loop_false _ db (mkCall "tags" data)
             (mkFilter "tags" tags_execute) Hin find_tags).
    simpl. now rewrite Hundef.
Qed.

Lemma tags_filter_matches_witness :
  tags_execute ["art"] gaming_viewer = JsTrue /\
  tags_execute ["art"] sample_viewer = JsFalse /\
  tags_execute ["music"] gaming_viewer = JsUndefined /\
  executeFilters (tagged_campaign ["music"]) gaming_viewer = false.
Proof.
  split; [|split].
  - apply (tags_filter_matches ["art"] gaming_viewer).
    exists (mkGuild (Some ["gaming"; "art"])), ["gaming"; "art"].
    repeat split. exists "art".
    split; apply list_elem_of_In; simpl; tauto.
  - apply (tags_filter_matches ["art"] sample_viewer). left. reflexivity.
  - destruct (tags_filter_matches ["music"] gaming_viewer) as (_ & _ & H).
    destruct (H (mkGuild (Some ["gaming"; "art"])) ["gaming"; "art"]
                eq_refl eq_refl) as [Hundef Hcampaign].
    + intros t Ht Hd. apply list_elem_of_In in Ht, Hd. simpl in Ht, Hd.
      destruct Hd as [<- | []]. destruct Ht as [Ht | [Ht | []]]; discriminate Ht.
    + split; [exact Hundef|].
      apply (Hcampaign (tagged_campaign ["music"]) [mkCall "tags" ["music"]]);
        [reflexivity | now left].
Defined.

(** ** Updates *)

Lemma update_unfold (campaign : DatabaseCampaign) (changes : PartialCampaign)
  (w : World) :
  update campaign changes w =
    (spread campaign changes,
     mkWorld (<[campaign_id campaign := spread campaign changes]> (collection w))
       (array_set (app_campaigns w)
          (findIndex (fun c => bool_decide (campaign_id c = campaign_id campaign))
                     (app_campaigns w))
          (spread campaign changes))
       (metrics w)).
Proof. reflexivity. Qed.

(** C7.  [incrementUsage] hands the campaign back untouched, and changes
    nothing, when the budget's type is not the event's type.  When it is,
    the new [used] is [used + cost / 1000], whatever [total] is: nothing
    caps it.  The rest of the budget and of the campaign is kept, and the
    result is what is stored. *)
Theorem incrementUsage_debits (campaign : DatabaseCampaign)
  (type : DatabaseCampaignBudgetType) (w : World) :
  (budget_type (campaign_budget campaign) <> type ->
   incrementUsage campaign type w = (campaign, w)) /\
  (budget_type (campaign_budget campaign) = type ->
   let updated := fst (incrementUsage campaign type w) in
   let budget := campaign_budget campaign in
   budget_used (campaign_budget updated) =
     nadd (budget_used budget) (ndiv (budget_cost budget) (num 1000)) /\
   (forall u k : Qc,
      budget_used budget = Fin u -> budget_cost budget = Fin k ->
      budget_used (campaign_budget updated) = Fin (u + k / Qc_of_Z 1000)%Qc) /\
   updated =
     mkCampaign (campaign_id campaign) (campaign_name campaign)
       (campaign_created campaign) (campaign_active campaign)
       (mkBudget (budget_total budget) (budget_used (campaign_budget updated))
                 (budget_type budget) (budget_cost budget))
       (campaign_logs campaign) (campaign_members campaign)
       (campaign_filters campaign) (campaign_link campaign)
       (campaign_settings campaign) (campaign_stats campaign) /\
   collection (snd (incrementUsage campaign type w)) !! campaign_id campaign =
     Some updated).
Proof.
  unfold incrementUsage. split; intros Htype.
  - rewrite bool_decide_eq_true_2 by exact Htype. reflexivity.
  - rewrite bool_decide_eq_false_2 by (intros Hne; exact (Hne Htype)).
    rewrite update_unfold. cbv zeta. simpl.
    split; [reflexivity|]. split; [|split].
    + intros u k -> ->. rewrite ndiv_1000. reflexivity.
    + reflexivity.
    + apply lookup_insert_eq.
Qed.

Lemma incrementUsage_debits_witness :
  incrementUsage spent_campaign view (world_of [spent_campaign]) =
    (spent_campaign, world_of [spent_campaign]) /\
  budget_used (campaign_budget
    (fst (incrementUsage spent_campaign click (world_of [spent_campaign])))) =
    Fin (Qc_of_Z 10 + Qc_of_Z 500 / Qc_of_Z 1000)%Qc /\
  nlt (budget_total (campaign_budget spent_campaign))
      (Fin (Qc_of_Z 10 + Qc_of_Z 500 / Qc_of_Z 1000)%Qc) = true.
Proof.
  split; [|split].
  - apply (incrementUsage_debits spent_campaign view). discriminate.
  - destruct (incrementUsage_debits spent_campaign click (world_of [spent_campaign]))
      as [_ H].
    destruct (H eq_refl) as (_ & Hfin & _).
    apply Hfin; reflexivity.
  - vm_compute. reflexivity.
Defined.

Lemma stats_of_with (type : StatisticsKey) (counter : StatisticsCounter)
  (stats : DatabaseCampaignStatistics) :
  stats_of type (stats_with type counter stats) = counter.
Proof. destruct type; reflexivity. Qed.

Lemma stats_of_with_other (type : StatisticsKey) (counter : StatisticsCounter)
  (stats : DatabaseCampaignStatistics) :
  stats_of (other_key type) (stats_with type counter stats) =
    stats_of (other_key type) stats.
Proof. destruct type; reflexivity. Qed.


Lemma incrementStatistic_unfold (campaign : DatabaseCampaign)
  (type : StatisticsKey) (db : DatabaseInfo) (w : World) :
  let old := stats_of type (campaign_stats campaign) in
  let geo :=
    match user_country (info_user db) with
    | Some country =>
        let value :=
          match stat_geo old !! country with
          | Some (Count n) => if bool_decide (n = 0) then Count 1 else Count (n + 1)
          | Some (Text member ones) => Text member (S ones)
          | None =>
              if bool_decide (country ∈ Object_prototype_keys) then Text country 1
              else Count 1
          end in
        if bool_decide (country = "__proto__") then ∅
        else {[ country := value ]}
    | None => ∅
    end in
  let updated :=
    spread campaign
      (with_stats
         (stats_with type (mkCounter (stat_total old + 1) (geo ∪ stat_geo old))
            (campaign_stats campaign))) in
  incrementStatistic campaign type db w =
    (updated,
     mkWorld (<[campaign_id campaign := updated]> (collection w))
       (array_set (app_campaigns w)
          (findIndex (fun c => bool_decide (campaign_id c = campaign_id campaign))
                     (app_campaigns w))
          updated)
       (metrics w ++
        [mkMetric type (campaign_name campaign) (stat_total old + 1)])).
Proof. reflexivity. Qed.




(** C9.  [clearStatistics] sets both counters to zero and both [geo] maps
    to the empty map, in one update; every other field of the campaign,
    the audit log among them, is the one it had. *)
Theorem clearStatistics_resets_only_statistics (campaign : DatabaseCampaign)
  (w : World) :
  let cleared := fst (clearStatistics campaign w) in
  stat_total (clicks (campaign_stats cleared)) = 0 /\
  stat_geo (clicks (campaign_stats cleared)) = ∅ /\
  stat_total (views (campaign_stats cleared)) = 0 /\
  stat_geo (views (campaign_stats cleared)) = ∅ /\
  campaign_id cleared = campaign_id campaign /\
  campaign_name cleared = campaign_name campaign /\
  campaign_created cleared = campaign_created campaign /\
  campaign_active cleared = campaign_active campaign /\
  campaign_budget cleared = campaign_budget campaign /\
  campaign_logs cleared = campaign_logs campaign /\
  campaign_members cleared = campaign_members campaign /\
  campaign_filters cleared = campaign_filters campaign /\
  campaign_link cleared = campaign_link campaign /\
  campaign_settings cleared = campaign_settings campaign /\
  clearStatistics campaign w =
    update campaign
      (mkPartial None None None None None None None None None None
         (Some (campaign_stats cleared))) w.
Proof.
  cbv zeta. unfold clearStatistics. rewrite update_unfold. simpl.
  repeat split.
Qed.

(** ** The in-memory list *)

Lemma findIndex_from_absent {A} (p : A -> bool) (l : list A) :
  Forall (fun x => p x = false) l -> forall i, findIndex_from p l i = -1.
Proof.
  induction 1 as [|x rest Hx _ IH]; intros i; simpl; [reflexivity|].
  rewrite Hx. apply IH.
Qed.

Lemma findIndex_from_present {A} (p : A -> bool) (l : list A) :
  forall i, 0 <= i ->
    findIndex_from p l i = -1 \/
    i <= findIndex_from p l i < i + Z.of_nat (length l).
Proof.
  induction l as [|x rest IH]; intros i Hi; simpl; [now left|].
  destruct (p x); [right; lia|].
  destruct (IH (i + 1) ltac:(lia)) as [H | H]; [now left | right; lia].
Qed.

Lemma array_set_negative {A} (arr : JsArray A) (v : A) :
  array_set arr (-1) v = mkArray (items arr) (<[-1 := v]> (properties arr)).
Proof.
  unfold array_set.
  rewrite bool_decide_eq_false_2 by lia.
  rewrite bool_decide_eq_false_2 by lia. reflexivity.
Qed.

(** C10.  When no element of the in-memory list has the campaign's id,
    [findIndex] yields [-1]; the assignment then writes the property
    ["-1"] of the array object: the elements of the list are the ones it
    had, the updated record is not among them unless it already was, and
    the updated record, which is the stored one, is still returned. *)
Theorem update_of_unlisted_campaign (campaign : DatabaseCampaign)
  (changes : PartialCampaign) (w : World) :
  Forall (fun c => campaign_id c <> campaign_id campaign)
         (items (app_campaigns w)) ->
  let updated := fst (AppCampaignManager.update campaign changes w) in
  let w' := snd (AppCampaignManager.update campaign changes w) in
  findIndex (fun c => bool_decide (campaign_id c = campaign_id campaign))
            (app_campaigns w) = -1 /\
  items (app_campaigns w') = items (app_campaigns w) /\
  length (items (app_campaigns w')) = length (items (app_campaigns w)) /\
  properties (app_campaigns w') = <[-1 := updated]> (properties (app_campaigns w)) /\
  updated = spread campaign changes /\
  collection w' !! campaign_id campaign = Some updated.
Proof.
  intros Habsent. cbv zeta.
  assert (Hindex :
    findIndex (fun c => bool_decide (campaign_id c = campaign_id campaign))
              (app_campaigns w) = -1).
  { unfold findIndex. apply findIndex_from_absent.
    eapply Forall_impl; [exact Habsent|]. intros c Hc. simpl.
    now apply bool_decide_eq_false_2. }
  pose proof (update_unfold campaign changes w) as Hupdate.
  unfold update in Hupdate. rewrite Hupdate. simpl.
  rewrite Hindex, array_set_negative. simpl.
  repeat split. apply lookup_insert_eq.
Qed.

Lemma update_of_unlisted_campaign_witness :
  let campaign := sample_campaign "z" 10 0 view in
  let toggled := mkPartial None None None (Some false) None None None None None None None in
  let w := world_of sample_pool in
  let updated := fst (AppCampaignManager.update campaign toggled w) in
  let w' := snd (AppCampaignManager.update campaign toggled w) in
  items (app_campaigns w') = sample_pool /\
  campaign_active updated = false /\
  collection w' !! "z" = Some updated.
Proof.
  cbv zeta.
  destruct (update_of_unlisted_campaign (sample_campaign "z" 10 0 view)
              (mkPartial None None None (Some false) None None None None None None None)
              (world_of sample_pool))
    as (_ & Hitems & _ & _ & Hupdated & Hstored).
  - repeat constructor; discriminate.
  - split; [exact Hitems|]. split; [|exact Hstored].
    rewrite Hupdated. reflexivity.
Defined.

(** A listed campaign is replaced in place. *)
Lemma update_of_listed_campaign :
  let campaign := sample_campaign "b" 10 0 view in
  let toggled := mkPartial None None None (Some false) None None None None None None None in
  let w' := snd (AppCampaignManager.update campaign toggled (world_of sample_pool)) in
  campaign_active <$> items (app_campaigns w') = [true; false; true] /\
  properties (app_campaigns w') = ∅.
Proof. split; reflexivity. Qed.

(** ** Creation *)





(** ** The link button *)

Lemma incrementUsage_keeps_statistics (campaign : DatabaseCampaign)
  (type : DatabaseCampaignBudgetType) (w : World) :
  campaign_stats (fst (incrementUsage campaign type w)) = campaign_stats campaign /\
  metrics (snd (incrementUsage campaign type w)) = metrics w.
Proof.
  unfold incrementUsage. case_bool_decide; [split; reflexivity|].
  rewrite update_unfold. split; reflexivity.
Qed.

Lemma incrementUsage_stored (campaign : DatabaseCampaign)
  (type : DatabaseCampaignBudgetType) (w : World) :
  collection w !! campaign_id campaign = Some campaign ->
  collection (snd (incrementUsage campaign type w)) !! campaign_id campaign =
    Some (fst (incrementUsage campaign type w)).
Proof.
  intros Hstored. unfold incrementUsage. case_bool_decide; [exact Hstored|].
  rewrite update_unfold. simpl. apply lookup_insert_eq.
Qed.

Section LinkButton.

Variable hostname : string -> option string.
Variable command_handleInteraction :
  InteractionHandlerRunOptions -> Async InteractionHandlerResponse.

(** The [link] branch debits the budget and nothing else: the campaign
    it leaves in the collection has the statistics it had, and no
    metric is sent. *)
Lemma handleInteraction_link_keeps_statistics
  (options : InteractionHandlerRunOptions) (w : World) (c : DatabaseCampaign) :
  run_action options = "link" ->
  run_raw options !! 1%nat = Some (campaign_id c) ->
  collection w !! campaign_id c = Some c ->
  let w' := snd (handleInteraction hostname command_handleInteraction options w) in
  collection w' !! campaign_id c = Some (fst (incrementUsage c click w)) /\
  campaign_stats <$> collection w' !! campaign_id c = Some (campaign_stats c) /\
  metrics w' = metrics w.
Proof.
  intros Haction Hraw Hstored. cbv zeta.
  unfold handleInteraction. rewrite Haction. simpl. rewrite Hraw.
  unfold bind, get, fetchFromCacheOrDatabase. rewrite Hstored.
  pose proof (incrementUsage_keeps_statistics c click w) as [Hstats Hmetrics].
  pose proof (incrementUsage_stored c click w Hstored) as Hcoll.
  destruct (incrementUsage c click w) as [c' w1] eqn:Hdebit. simpl in *.
  assert (Hw : snd (match hostname (campaign_link c') with
                    | Some domain =>
                        resolve (Replied (mkResponse (url c' (run_db options)) domain true))
                    | None => resolve Thrown
                    end w1) = w1)
    by (destruct (hostname (campaign_link c')); reflexivity).
  rewrite Hw. split; [exact Hcoll|]. split; [|exact Hmetrics].
  rewrite Hcoll. simpl. now rewrite Hstats.
Qed.

End LinkButton.

(** C2 on the code.  A click on the link button of a campaign billed per
    click: the reply is built and the budget is debited (10 becomes 10.5),
    but [stats.clicks] stays at zero and no metric is sent, whereas [ad]
    on the same kind of campaign raises [stats.views] and sends one. *)
Theorem handleInteraction_link_counts_no_click :
  let w := world_of [spent_campaign] in
  let result := handleInteraction sample_hostname no_command (link_options "s") w in
  fst result = Replied (mkResponse "https://l.turing.sh/s/1001" "example.org" true) /\
  budget_used <$> (campaign_budget <$> collection (snd result) !! "s") =
    Some (Fin (Q2Qc (21 # 2))) /\
  campaign_stats <$> collection (snd result) !! "s" = Some no_statistics /\
  metrics (snd result) = [] /\
  let shown :=
    ad builders_accept_all sample_viewer (Q2Qc 0)
       (world_of [sample_campaign "s" 10 0 view]) in
  stat_total <$> (views <$> (campaign_stats <$> collection (snd shown) !! "s")) = Some 1 /\
  metrics (snd shown) = [mkMetric Views "s" 1].
Proof.
  cbv zeta. split; [vm_compute; reflexivity|]. split.
  - assert (H : bool_decide
        (budget_used <$> (campaign_budget <$>
           collection (snd (handleInteraction sample_hostname no_command
                              (link_options "s") (world_of [spent_campaign]))) !! "s") =
         Some (Fin (Q2Qc (21 # 2)))) = true) by (vm_compute; reflexivity).
    now apply bool_decide_eq_true in H.
  - repeat split; vm_compute; reflexivity.
Qed.

(** ** Further properties of the filters *)

Lemma executeFilters_loop_complete (calls : list DatabaseCampaignFilterCall)
  (db : DatabaseInfo) :
  (forall call filter,
     In call calls ->
     find (fun f => bool_decide (filter_name f = call_name call))
          DatabaseCampaignFilters = Some filter ->
     filter_execute filter (call_data call) db = JsTrue) ->
  executeFilters_loop calls db = true.
Proof.
  induction calls as [|first rest IH]; intros Hall; [reflexivity|].
  cbn [executeFilters_loop].
  destruct (find (fun f => bool_decide (filter_name f = call_name first))
                 DatabaseCampaignFilters) as [f|] eqn:Hfind.
  - rewrite (Hall first f (or_introl eq_refl) Hfind). simpl.
    apply IH. intros call filter Hin. apply Hall. now right.
  - apply IH. intros call filter Hin. apply Hall. now right.
Qed.

(** X1.  [executeFilters] accepts a viewer exactly when every call of the
    campaign's filter list whose name is registered yields [true]; calls
    with an unregistered name, a missing list and an empty list put no
    condition on the viewer. *)
Theorem executeFilters_accepts_iff (campaign : DatabaseCampaign) (db : DatabaseInfo) :
  executeFilters campaign db = true <->
  (forall calls call filter,
     campaign_filters campaign = Some calls ->
     In call calls ->
     find (fun f => bool_decide (filter_name f = call_name call))
          DatabaseCampaignFilters = Some filter ->
     filter_execute filter (call_data call) db = JsTrue).
Proof.
  split; [apply executeFilters_true|].
  intros Hall. unfold executeFilters.
  destruct (campaign_filters campaign) as [calls|] eqn:Hcalls; [|reflexivity].
  destruct calls as [|first rest]; [reflexivity|].
  apply executeFilters_loop_complete. intros call filter. now apply Hall.
Qed.

Lemma executeFilters_accepts_iff_witness :
  executeFilters targeted_campaign sample_viewer = true.
Proof.
  apply (proj2 (executeFilters_accepts_iff targeted_campaign sample_viewer)).
  intros calls call filter Hcalls Hin Hfind.
  injection Hcalls as <-.
  destruct Hin as [<- | [<- | []]].
  - injection Hfind as <-. reflexivity.
  - discriminate Hfind.
Defined.

Lemma find_countries :
  find (fun f => bool_decide (filter_name f = "countries")) DatabaseCampaignFilters =
    Some (mkFilter "countries" countries_execute).
Proof. reflexivity. Qed.

(** X2.  The [countries] filter yields [true] exactly when the viewer has
    a country, the country is not the empty string, and it is in the
    list.  A campaign that calls [countries] therefore matches no viewer
    whose country is missing or empty, whatever the list holds. *)
Theorem countries_filter_needs_country (data : list string) (db : DatabaseInfo) :
  (countries_execute data db = JsTrue <->
   exists country,
     user_country (info_user db) = Some country /\ country <> "" /\ country ∈ data) /\
  (user_country (info_user db) = None \/ user_country (info_user db) = Some "" ->
   forall campaign calls,
     campaign_filters campaign = Some calls ->
     In (mkCall "countries" data) calls ->
     executeFilters campaign db = false).
Proof.
  split.
  - unfold countries_execute.
    destruct (user_country (info_user db)) as [country|]; split.
    + case_bool_decide as Hempty; [discriminate|].
      destruct (includes data country) eqn:Hin; [|discriminate].
      intros _. exists country. repeat split; [exact Hempty|].
      now apply includes_true.
    + intros (c & [= <-] & Hne & Hin).
      rewrite bool_decide_eq_false_2 by exact Hne.
      apply includes_true in Hin. now rewrite Hin.
    + discriminate.
    + intros (c & Hc & _). discriminate Hc.
  - intros Hmissing campaign calls Hcalls Hin.
    unfold executeFilters. rewrite Hcalls.
    destruct calls as [|first rest]; [destruct Hin|].
    apply (executeFilters_loop_false _ db (mkCall "countries" data)
             (mkFilter "countries" countries_execute) Hin find_countries).
    simpl. unfold countries_execute.
    destruct Hmissing as [-> | ->]; reflexivity.
Qed.

Lemma countries_filter_needs_country_witness :
  countries_execute ["DE"; "FR"] sample_viewer = JsTrue /\
  executeFilters targeted_campaign anonymous_viewer = false.
Proof.
  split.
  - apply (countries_filter_needs_country ["DE"; "FR"] sample_viewer).
    exists "DE". split; [reflexivity|]. split; [discriminate|].
    apply list_elem_of_In. now left.
  - destruct (countries_filter_needs_country ["DE"; "FR"] anonymous_viewer) as [_ H].
    apply (H (or_introl eq_refl) targeted_campaign
             [mkCall "countries" ["DE"; "FR"]; mkCall "unknown" []]);
      [reflexivity | now left].
Defined.

(** ** Further properties of [pick] *)

Lemma filter_eligible_insert (db : DatabaseInfo) (before after : list DatabaseCampaign)
  (c : DatabaseCampaign) :
  eligible db c = false ->
  List.filter (eligible db) (before ++ c :: after) =
  List.filter (eligible db) (before ++ after).
Proof.
  intros Hc. rewrite !List.filter_app. simpl. now rewrite Hc.
Qed.

(** X3.  A campaign that is not eligible (inactive, over its budget or
    filtered out for the viewer) has no influence on the draw: wherever it
    stands in the list, [pick] returns what it returns without it. *)
Theorem pick_ignores_ineligible (db : DatabaseInfo) (rand : Qc)
  (before after : list DatabaseCampaign) (c : DatabaseCampaign) :
  eligible db c = false ->
  pick_from (before ++ c :: after) db rand = pick_from (before ++ after) db rand.
Proof.
  intros Hc. unfold pick_from. now rewrite (filter_eligible_insert db before after c Hc).
Qed.

Lemma pick_ignores_ineligible_witness :
  pick_from [sample_campaign "a" 10 0 view; sample_campaign "x" 1000 2000 view;
             sample_campaign "c" 80 0 view] sample_viewer (Q2Qc (1 # 2)) =
  pick_from [sample_campaign "a" 10 0 view; sample_campaign "c" 80 0 view]
            sample_viewer (Q2Qc (1 # 2)).
Proof.
  apply (pick_ignores_ineligible sample_viewer (Q2Qc (1 # 2))
           [sample_campaign "a" 10 0 view] [sample_campaign "c" 80 0 view]
           (sample_campaign "x" 1000 2000 view)).
  vm_compute. reflexivity.
Defined.

(** X4.  A campaign that [create] has just made is inactive, so it is
    eligible for no viewer, and creating it changes nothing in what
    [pick] returns. *)
Theorem create_does_not_change_pick (id now : string)
  (options : CreateCampaignOptions) (db : DatabaseInfo) (rand : Qc) (w : World) :
  eligible db (fst (create id now options w)) = false /\
  fst (pick db rand (snd (create id now options w))) = fst (pick db rand w).
Proof.
  split; [reflexivity|].
  rewrite !pick_unfold. simpl.
  unfold create, bind, createFromCacheOrDatabase. simpl.
  unfold pick_from.
  rewrite (filter_eligible_insert db (items (app_campaigns w)) []) by reflexivity.
  now rewrite app_nil_r.
Qed.

(** ** The audit log *)

(** X5.  [log] appends one entry, after the entries the campaign has, and
    touches no other field; two calls in a row, the second on the
    campaign the first returned, leave both entries in call order. *)
Theorem log_appends_in_order (campaign : DatabaseCampaign)
  (action1 action2 : DatabaseCampaignLogAction) (user1 user2 : string)
  (when1 when2 : Z) (data1 data2 : option string) (w : World) :
  let first := log campaign action1 user1 when1 data1 w in
  let second := log (fst first) action2 user2 when2 data2 (snd first) in
  campaign_logs (fst first) =
    campaign_logs campaign ++ [mkLog action1 when1 user1 data1] /\
  campaign_logs (fst second) =
    campaign_logs campaign ++
      [mkLog action1 when1 user1 data1; mkLog action2 when2 user2 data2] /\
  fst second =
    mkCampaign (campaign_id campaign) (campaign_name campaign)
      (campaign_created campaign) (campaign_active campaign)
      (campaign_budget campaign) (campaign_logs (fst second))
      (campaign_members campaign) (campaign_filters campaign)
      (campaign_link campaign) (campaign_settings campaign)
      (campaign_stats campaign) /\
  collection (snd second) !! campaign_id campaign = Some (fst second).
Proof.
  cbv zeta. unfold log. rewrite !update_unfold. simpl.
  split; [reflexivity|]. split; [now rewrite <- app_assoc|].
  split; [reflexivity|]. apply lookup_insert_eq.
Qed.

(** ** The draw *)

Lemma num_add (a b : Z) : nadd (num a) (num b) = num (a + b).
Proof. unfold num. simpl. now rewrite Z2Qc_inj_add. Qed.

Lemma num_lt (a b : Z) : nlt (num a) (num b) = true <-> a < b.
Proof. unfold num. simpl. rewrite Qc_ltb_true. symmetry. apply Z2Qc_inj_lt. Qed.

Lemma num_le (a b : Z) : nle (num a) (num b) = true <-> a <= b.
Proof. unfold num. simpl. rewrite Qc_leb_true. symmetry. apply Z2Qc_inj_le. Qed.

Lemma random_of_range (rand : Qc) :
  (0 ≤ rand)%Qc -> (rand < 1)%Qc ->
  exists k : Z, random_of rand = num k /\ 1 <= k <= 100.
Proof.
  intros Hlow Hhigh.
  exists (Qfloor (rand * Qc_of_Z 100)%Qc + 1). split.
  - unfold random_of. simpl. apply num_add.
  - assert (Hpos : (0 < Qc_of_Z 100)%Qc) by (rewrite <- Z2Qc_inj_0; now apply Z2Qc_inj_lt).
    assert (H0 : (0 ≤ rand * Qc_of_Z 100)%Qc).
    { rewrite <- (Qcmult_0_l (Qc_of_Z 100)).
      apply Qcmult_le_compat_r; [exact Hlow | now apply Qclt_le_weak]. }
    assert (H100 : (rand * Qc_of_Z 100 < Qc_of_Z 100)%Qc).
    { rewrite <- (Qcmult_1_l (Qc_of_Z 100)) at 2.
      apply Qcmult_lt_compat_r; assumption. }
    split.
    + pose proof (Qfloor_resp_le 0%Q (rand * Qc_of_Z 100)%Qc H0) as Hf.
      change (Qfloor 0) with 0 in Hf. lia.
    + pose proof (Qfloor_le (rand * Qc_of_Z 100)%Qc) as Hf.
      assert (Hlt : (inject_Z (Qfloor (rand * Qc_of_Z 100)%Qc) < inject_Z 100)%Q).
      { eapply Qle_lt_trans; [exact Hf | exact H100]. }
      rewrite <- Zlt_Qlt in Hlt. lia.
Qed.

(** X6.  Whatever [Math.random()] returns in [[0, 1)], the number drawn by
    [pick] is an integer from 1 to 100. *)
Theorem random_is_between_1_and_100 (rand : Qc) :
  (0 ≤ rand)%Qc -> (rand < 1)%Qc ->
  exists k : Z, random_of rand = num k /\ 1 <= k <= 100.
Proof. apply random_of_range. Qed.

Lemma random_is_between_1_and_100_witness :
  exists k : Z, random_of (Q2Qc (999 # 1000)) = num k /\ 1 <= k <= 100.
Proof.
  apply (random_is_between_1_and_100 (Q2Qc (999 # 1000))).
  - apply Qc_leb_true. vm_compute. reflexivity.
  - apply Qc_ltb_true. vm_compute. reflexivity.
Defined.

Lemma share_of_whole (c : DatabaseCampaign) (q : Qc) :
  budget_total (campaign_budget c) = Fin q -> (0 < q)%Qc ->
  share (totalBudget_of [c]) c = num 100.
Proof.
  intros Htotal Hq. unfold totalBudget_of, share. simpl. rewrite Htotal. simpl.
  rewrite Z2Qc_inj_0, Qcplus_0_l.
  assert (Hne : q <> 0%Qc) by (apply not_eq_sym, Qclt_not_eq; exact Hq).
  unfold Qc_eqb. rewrite bool_decide_eq_false_2 by exact Hne.
  unfold Qcdiv. rewrite Qcmult_inv_r by exact Hne.
  number_eq.
Qed.

(** X7.  When exactly one campaign is eligible and its budget total is
    positive, its share is 100 and [pick] returns it for every draw. *)
Theorem pick_single_eligible (campaigns : list DatabaseCampaign) (db : DatabaseInfo)
  (rand : Qc) (c : DatabaseCampaign) (q : Qc) :
  List.filter (eligible db) campaigns = [c] ->
  budget_total (campaign_budget c) = Fin q -> (0 < q)%Qc ->
  (0 ≤ rand)%Qc -> (rand < 1)%Qc ->
  pick_from campaigns db rand = Some c.
Proof.
  intros Hsorted Htotal Hq Hlow Hhigh.
  unfold pick_from. rewrite Hsorted. cbn [loop].
  rewrite iteration_share_clamp. cbv zeta.
  rewrite (share_of_whole c q Htotal Hq). simpl interval_start. simpl interval_end.
  destruct (random_of_range rand Hlow Hhigh) as (k & -> & Hk).
  rewrite num_add.
  assert (Hgt : ngt (num k) (num 0) = true) by (apply num_lt; lia).
  assert (Hle : nle (num k) (num (0 + 100)) = true) by (apply num_le; lia).
  rewrite Hgt, Hle. reflexivity.
Qed.

Lemma pick_single_eligible_witness :
  pick_from [sample_campaign "x" 1000 2000 view; sample_campaign "a" 7 0 view]
            sample_viewer (Q2Qc (999 # 1000)) =
    Some (sample_campaign "a" 7 0 view).
Proof.
  apply (pick_single_eligible _ sample_viewer (Q2Qc (999 # 1000))
           (sample_campaign "a" 7 0 view) (Qc_of_Z 7)).
  - vm_compute. reflexivity.
  - reflexivity.
  - apply Qc_ltb_true. vm_compute. reflexivity.
  - apply Qc_leb_true. vm_compute. reflexivity.
  - apply Qc_ltb_true. vm_compute. reflexivity.
Defined.

(** ** Serving an advertisement *)

Lemma ad_unfold (builders_accept : DatabaseCampaign -> bool) (db : DatabaseInfo)
  (rand : Qc) (w : World) (c : DatabaseCampaign) :
  fst (pick db rand w) = Some c ->
  ad builders_accept db rand w =
    let counted := incrementStatistic c Views db w in
    let debited := incrementUsage (fst counted) view (snd counted) in
    (match render builders_accept (fst debited) false db with
     | Some display => AdShown display
     | None => AdThrown
     end, snd debited).
Proof.
  intros Hpick. rewrite pick_unfold in Hpick. simpl in Hpick.
  unfold ad, bind. rewrite pick_unfold, Hpick. cbv zeta.
  destruct (incrementStatistic c Views db w) as [counted w1]. cbn [fst snd].
  destruct (incrementUsage counted view w1) as [debited w2]. cbn [fst snd].
  destruct (render builders_accept debited false db); reflexivity.
Qed.

Lemma view_then_debit (c : DatabaseCampaign) (db : DatabaseInfo) (w : World) :
  let counted := incrementStatistic c Views db w in
  let debited := incrementUsage (fst counted) view (snd counted) in
  campaign_settings (fst debited) = campaign_settings c /\
  stat_total (views (campaign_stats (fst debited))) =
    stat_total (views (campaign_stats c)) + 1 /\
  clicks (campaign_stats (fst debited)) = clicks (campaign_stats c) /\
  campaign_budget (fst debited) =
    (if bool_decide (budget_type (campaign_budget c) = view)
     then mkBudget (budget_total (campaign_budget c))
            (nadd (budget_used (campaign_budget c))
                  (ndiv (budget_cost (campaign_budget c)) (num 1000)))
            view (budget_cost (campaign_budget c))
     else campaign_budget c) /\
  collection (snd debited) !! campaign_id c = Some (fst debited) /\
  metrics (snd debited) =
    metrics w ++
    [mkMetric Views (campaign_name c) (stat_total (views (campaign_stats c)) + 1)].
Proof.
  cbv zeta. pose proof (incrementStatistic_unfold c Views db w) as Hcount.
  cbv zeta in Hcount. rewrite Hcount. clear Hcount. cbn [fst snd].
  unfold incrementUsage.
  destruct (decide (budget_type (campaign_budget c) = view)) as [Htype | Htype].
  - rewrite (bool_decide_eq_true_2 _ Htype).
    rewrite bool_decide_eq_false_2 by (intros Hne; apply Hne; exact Htype).
    rewrite update_unfold. simpl. rewrite Htype.
    repeat split. apply lookup_insert_eq.
  - rewrite (bool_decide_eq_false_2 _ Htype).
    rewrite bool_decide_eq_true_2 by exact Htype.
    simpl. repeat split. apply lookup_insert_eq.
Qed.

(** X8.  When [pick] returns nothing, [ad] returns nothing and leaves the
    state alone.  When it returns a campaign, that campaign gets one more
    view and, if it is billed per view, is debited by [cost / 1000]; the
    result is stored under its id and one [views] metric with the new
    total is sent.  Only then is it rendered: [ad] resolves to the
    rendered campaign when the builders accept it and rejects when one of
    them throws, the view being counted and billed all the same. *)
Theorem ad_counts_and_debits (builders_accept : DatabaseCampaign -> bool)
  (db : DatabaseInfo) (rand : Qc) (w : World) :
  (fst (pick db rand w) = None -> ad builders_accept db rand w = (AdNone, w)) /\
  (forall c,
     fst (pick db rand w) = Some c ->
     exists shown,
       fst (ad builders_accept db rand w) =
         (if builders_accept shown
          then AdShown
                 (mkDisplay shown (settings_title (campaign_settings c))
                    (settings_description (campaign_settings c))
                    "This is a sponsored advertisement.")
          else AdThrown) /\
       stat_total (views (campaign_stats shown)) =
         stat_total (views (campaign_stats c)) + 1 /\
       clicks (campaign_stats shown) = clicks (campaign_stats c) /\
       campaign_budget shown =
         (if bool_decide (budget_type (campaign_budget c) = view)
          then mkBudget (budget_total (campaign_budget c))
                 (nadd (budget_used (campaign_budget c))
                       (ndiv (budget_cost (campaign_budget c)) (num 1000)))
                 view (budget_cost (campaign_budget c))
          else campaign_budget c) /\
       collection (snd (ad builders_accept db rand w)) !! campaign_id c = Some shown /\
       metrics (snd (ad builders_accept db rand w)) =
         metrics w ++
         [mkMetric Views (campaign_name c)
            (stat_total (views (campaign_stats c)) + 1)]).
Proof.
  split.
  - intros Hnone. rewrite pick_unfold in Hnone. simpl in Hnone.
    unfold ad, bind. rewrite pick_unfold, Hnone. reflexivity.
  - intros c Hpick. rewrite (ad_unfold builders_accept db rand w c Hpick).
    destruct (view_then_debit c db w)
      as (Hsettings & Hviews & Hclicks & Hbudget & Hstored & Hmetrics).
    cbv zeta in *.
    exists (fst (incrementUsage (fst (incrementStatistic c Views db w)) view
                   (snd (incrementStatistic c Views db w)))).
    cbn [fst snd]. unfold render. rewrite Hsettings.
    split; [|repeat split; assumption].
    match goal with
    | |- context [if builders_accept ?x then _ else _] => destruct (builders_accept x)
    end; reflexivity.
Qed.

Lemma ad_counts_and_debits_witness :
  ad builders_accept_all sample_viewer (Q2Qc (1 # 2))
     (world_of [sample_campaign "x" 10 20 view]) =
    (AdNone, world_of [sample_campaign "x" 10 20 view]) /\
  exists shown,
    fst (ad builders_accept_none sample_viewer (Q2Qc 0) (world_of sample_pool)) =
      AdThrown /\
    stat_total (views (campaign_stats shown)) = 1 /\
    collection (snd (ad builders_accept_none sample_viewer (Q2Qc 0)
                       (world_of sample_pool))) !! "a" = Some shown.
Proof.
  split.
  - apply (ad_counts_and_debits builders_accept_all sample_viewer (Q2Qc (1 # 2))).
    vm_compute. reflexivity.
  - destruct (ad_counts_and_debits builders_accept_none sample_viewer (Q2Qc 0)
                (world_of sample_pool)) as [_ H].
    destruct (H (sample_campaign "a" 10 0 view))
      as (shown & Hshown & Hviews & _ & _ & Hstored & _).
    + vm_compute. reflexivity.
    + exists shown. split; [exact Hshown|]. split; [exact Hviews | exact Hstored].
Defined.

(** ** Budgets over time *)

Lemma per_event_cost_nonnegative (k : Qc) :
  (0 ≤ k)%Qc -> (0 ≤ k / Qc_of_Z 1000)%Qc.
Proof.
  intros Hk. unfold Qcdiv.
  rewrite <- (Qcmult_0_l (/ Qc_of_Z 1000)).
  apply Qcmult_le_compat_r; [exact Hk|].
  apply Qc_leb_true. vm_compute. reflexivity.
Qed.

(** X9.  With finite amounts and a cost that is not negative, a debit
    never lowers [used]: a campaign that is over its budget stays
    unavailable after [incrementUsage], whatever the event type. *)
Theorem exhausted_stays_exhausted (campaign : DatabaseCampaign)
  (type : DatabaseCampaignBudgetType) (w : World) (t u k : Qc) :
  budget_total (campaign_budget campaign) = Fin t ->
  budget_used (campaign_budget campaign) = Fin u ->
  budget_cost (campaign_budget campaign) = Fin k ->
  (0 ≤ k)%Qc ->
  available campaign = false ->
  available (fst (incrementUsage campaign type w)) = false.
Proof.
  intros Ht Hu Hk Hcost Hexhausted.
  unfold incrementUsage. case_bool_decide; [exact Hexhausted|].
  rewrite update_unfold. unfold available, nge in *. simpl.
  rewrite Ht, Hu, Hk in *. rewrite ndiv_1000. simpl in *.
  unfold Qc_leb in *. apply bool_decide_eq_false in Hexhausted.
  apply bool_decide_eq_false. intros Hle. apply Hexhausted.
  eapply Qcle_trans; [|exact Hle].
  rewrite <- (Qcplus_0_r u) at 1.
  apply Qcplus_le_compat; [apply Qcle_refl | now apply per_event_cost_nonnegative].
Qed.

Lemma exhausted_stays_exhausted_witness :
  available (fst (incrementUsage (sample_campaign "x" 10 20 view) view
                    (world_of [sample_campaign "x" 10 20 view]))) = false.
Proof.
  apply (exhausted_stays_exhausted (sample_campaign "x" 10 20 view) view _
           (Qc_of_Z 10) (Qc_of_Z 20) (Qc_of_Z 500)); try reflexivity.
  apply Qc_leb_true. vm_compute. reflexivity.
Defined.

(** ** Statistics updates in general *)

Lemma stats_with_same (type : StatisticsKey) (stats : DatabaseCampaignStatistics) :
  stats_with type (stats_of type stats) stats = stats.
Proof. destruct type, stats; reflexivity. Qed.

(** X10.  [updateStatistics] merges: a [total] that is not given keeps the
    old one; in [geo] the keys of the update take the update's count and
    every other key keeps its count; the other counter is not touched.  An
    update that carries nothing gives back the statistics as they were. *)
Theorem updateStatistics_merges (campaign : DatabaseCampaign) (type : StatisticsKey)
  (updates : CounterUpdates) (w : World) :
  let old := stats_of type (campaign_stats campaign) in
  let updated := campaign_stats (fst (updateStatistics campaign type updates w)) in
  stat_total (stats_of type updated) =
    default (stat_total old) (updates_total updates) /\
  (forall key,
     stat_geo (stats_of type updated) !! key =
       match default ∅ (updates_geo updates) !! key with
       | Some count => Some count
       | None => stat_geo old !! key
       end) /\
  stats_of (other_key type) updated =
    stats_of (other_key type) (campaign_stats campaign) /\
  campaign_stats (fst (updateStatistics campaign type (mkUpdates None None) w)) =
    campaign_stats campaign.
Proof.
  cbv zeta. unfold updateStatistics. rewrite !update_unfold. simpl.
  rewrite stats_of_with, stats_of_with_other. simpl.
  split; [reflexivity|]. split; [|split; [reflexivity|]].
  - intros key. rewrite lookup_union.
    destruct (default ∅ (updates_geo updates) !! key) as [count|];
      destruct (stat_geo (stats_of type (campaign_stats campaign)) !! key);
      reflexivity.
  - rewrite (left_id ∅ (∪)).
    replace {| stat_total := stat_total (stats_of type (campaign_stats campaign));
               stat_geo := stat_geo (stats_of type (campaign_stats campaign)) |}
      with (stats_of type (campaign_stats campaign))
      by (destruct (stats_of type (campaign_stats campaign)); reflexivity).
    apply stats_with_same.
Qed.

(** ** More on the in-memory list *)

Lemma findIndex_from_first {A} (p : A -> bool) (before after : list A) (x : A) :
  Forall (fun y => p y = false) before -> p x = true ->
  forall i, findIndex_from p (before ++ x :: after) i = i + Z.of_nat (length before).
Proof.
  induction 1 as [|y rest Hy _ IH]; intros Hx i; simpl.
  - rewrite Hx. lia.
  - rewrite Hy, IH by exact Hx. lia.
Qed.

Lemma findIndex_first (campaign : DatabaseCampaign)
  (before after : list DatabaseCampaign) (c : DatabaseCampaign)
  (properties : gmap Z DatabaseCampaign) :
  Forall (fun y => campaign_id y <> campaign_id campaign) before ->
  campaign_id c = campaign_id campaign ->
  findIndex (fun y => bool_decide (campaign_id y = campaign_id campaign))
            (mkArray (before ++ c :: after) properties) =
    Z.of_nat (length before).
Proof.
  intros Hbefore Hc. unfold findIndex. simpl.
  rewrite findIndex_from_first; [lia | | now apply bool_decide_eq_true_2].
  eapply Forall_impl; [exact Hbefore|]. intros y Hy. simpl.
  now apply bool_decide_eq_false_2.
Qed.

(** X11.  When the list holds the campaign's id, [update] replaces the
    first element that has it with the updated record, in place: the
    elements before and after it, the length and the other properties of
    the array are as they were. *)
Theorem update_of_listed_replaces_in_place (campaign : DatabaseCampaign)
  (changes : PartialCampaign) (w : World)
  (before after : list DatabaseCampaign) (c : DatabaseCampaign) :
  items (app_campaigns w) = before ++ c :: after ->
  Forall (fun y => campaign_id y <> campaign_id campaign) before ->
  campaign_id c = campaign_id campaign ->
  let updated := fst (AppCampaignManager.update campaign changes w) in
  let w' := snd (AppCampaignManager.update campaign changes w) in
  items (app_campaigns w') = before ++ updated :: after /\
  properties (app_campaigns w') = properties (app_campaigns w) /\
  updated = spread campaign changes.
Proof.
  intros Hitems Hbefore Hc. cbv zeta.
  pose proof (update_unfold campaign changes w) as Hupdate.
  unfold update in Hupdate. rewrite Hupdate. simpl.
  destruct (app_campaigns w) as [elements props] eqn:Harr. simpl in Hitems.
  subst elements.
  rewrite (findIndex_first campaign before after c props Hbefore Hc).
  unfold array_set. simpl.
  rewrite bool_decide_eq_true_2 by (rewrite length_app; simpl; lia).
  simpl. rewrite Nat2Z.id.
  repeat split.
  rewrite insert_app_r_alt by lia. now rewrite Nat.sub_diag.
Qed.

Lemma update_of_listed_replaces_in_place_witness :
  let campaign := sample_campaign "b" 10 0 view in
  let toggled := mkPartial None None None (Some false) None None None None None None None in
  let w' := snd (AppCampaignManager.update campaign toggled (world_of sample_pool)) in
  items (app_campaigns w') =
    [sample_campaign "a" 10 0 view] ++
    spread campaign toggled :: [sample_campaign "c" 80 0 view].
Proof.
  cbv zeta.
  destruct (update_of_listed_replaces_in_place (sample_campaign "b" 10 0 view)
              (mkPartial None None None (Some false) None None None None None None None)
              (world_of sample_pool)
              [sample_campaign "a" 10 0 view] [sample_campaign "c" 80 0 view]
              (sample_campaign "b" 10 0 view)) as (Hitems & _ & Hupdated).
  - reflexivity.
  - repeat constructor. discriminate.
  - reflexivity.
  - rewrite Hitems, Hupdated. reflexivity.
Defined.

(** ** Deleting *)

Lemma delete_unfold (campaign : DatabaseCampaign) (w : World) :
  ClusterCampaignManager.delete campaign w =
    (tt,
     mkWorld (base.delete (campaign_id campaign) (collection w))
       (array_splice (app_campaigns w)
          (findIndex (fun c => bool_decide (campaign_id c = campaign_id campaign))
                     (app_campaigns w)) 1)
       (metrics w)).
Proof. reflexivity. Qed.

Lemma array_splice_one {A} (before after : list A) (x : A) (props : gmap Z A) :
  array_splice (mkArray (before ++ x :: after) props)
               (Z.of_nat (length before)) 1 =
    mkArray (before ++ after) props.
Proof.
  unfold array_splice. simpl.
  rewrite bool_decide_eq_false_2 by lia.
  rewrite length_app. simpl.
  replace (Z.min (Z.of_nat (length before))
                 (Z.of_nat (length before + S (length after))))
    with (Z.of_nat (length before)) by lia.
  replace (Z.min (Z.max 1 0)
             (Z.of_nat (length before + S (length after)) - Z.of_nat (length before)))
    with 1 by lia.
  rewrite Nat2Z.id.
  replace (Z.to_nat (Z.of_nat (length before) + 1)) with (S (length before)) by lia.
  f_equal.
  assert (Hdrop : drop (S (length before)) (before ++ x :: after) = after).
  { rewrite (cons_middle x before after), app_assoc.
    apply drop_app_length'. rewrite length_app. simpl. lia. }
  rewrite Hdrop, take_app_length. reflexivity.
Qed.

Lemma array_splice_last {A} (arr : JsArray A) :
  array_splice arr (-1) 1 =
    mkArray (take (length (items arr) - 1) (items arr)) (properties arr).
Proof.
  unfold array_splice. rewrite bool_decide_eq_true_2 by lia.
  destruct (items arr) as [|x rest] eqn:Hitems.
  - reflexivity.
  - set (len := length (x :: rest)).
    assert (Hlen : (1 <= len)%nat) by (unfold len; simpl; lia).
    replace (Z.max (Z.of_nat len + -1) 0) with (Z.of_nat (len - 1)) by lia.
    replace (Z.min (Z.max 1 0) (Z.of_nat len - Z.of_nat (len - 1))) with 1 by lia.
    rewrite Nat2Z.id.
    replace (Z.to_nat (Z.of_nat (len - 1) + 1)) with len by lia.
    unfold len. rewrite drop_all, app_nil_r. reflexivity.
Qed.

(** X12.  [delete] of a campaign whose id is in the in-memory list removes
    the first element that has this id and nothing else from the list, and
    drops the record stored under the id. *)
Theorem delete_removes_listed (campaign : DatabaseCampaign) (w : World)
  (before after : list DatabaseCampaign) (c : DatabaseCampaign) :
  items (app_campaigns w) = before ++ c :: after ->
  Forall (fun y => campaign_id y <> campaign_id campaign) before ->
  campaign_id c = campaign_id campaign ->
  let w' := snd (ClusterCampaignManager.delete campaign w) in
  items (app_campaigns w') = before ++ after /\
  collection w' !! campaign_id campaign = None /\
  (forall id, id <> campaign_id campaign -> collection w' !! id = collection w !! id).
Proof.
  intros Hitems Hbefore Hc. cbv zeta. rewrite delete_unfold.
  cbn [snd app_campaigns collection].
  destruct (app_campaigns w) as [elements props]. simpl in Hitems. subst elements.
  rewrite (findIndex_first campaign before after c props Hbefore Hc).
  rewrite array_splice_one. simpl.
  split; [reflexivity|]. split; [apply lookup_delete_eq|].
  intros id Hid. apply lookup_delete_ne. congruence.
Qed.

Lemma delete_removes_listed_witness :
  let w' := snd (ClusterCampaignManager.delete (sample_campaign "b" 10 0 view)
                   (world_of sample_pool)) in
  items (app_campaigns w') =
    [sample_campaign "a" 10 0 view] ++ [sample_campaign "c" 80 0 view] /\
  collection w' !! "b" = None.
Proof.
  cbv zeta.
  destruct (delete_removes_listed (sample_campaign "b" 10 0 view) (world_of sample_pool)
              [sample_campaign "a" 10 0 view] [sample_campaign "c" 80 0 view]
              (sample_campaign "b" 10 0 view)) as (Hitems & Hgone & _).
  - reflexivity.
  - repeat constructor. discriminate.
  - reflexivity.
  - split; [exact Hitems | exact Hgone].
Defined.

(** X13.  [delete] of a campaign whose id is not in the in-memory list
    still shortens the list: [findIndex] yields [-1] and [splice(-1, 1)]
    removes the last element, which belongs to another campaign.  Only an
    empty list is left as it is. *)
Theorem delete_of_unlisted_drops_last (campaign : DatabaseCampaign) (w : World) :
  Forall (fun y => campaign_id y <> campaign_id campaign)
         (items (app_campaigns w)) ->
  let w' := snd (ClusterCampaignManager.delete campaign w) in
  (forall init last,
     items (app_campaigns w) = init ++ [last] ->
     items (app_campaigns w') = init) /\
  (items (app_campaigns w) = [] -> items (app_campaigns w') = []).
Proof.
  intros Habsent. cbv zeta. rewrite delete_unfold.
  cbn [snd app_campaigns collection].
  assert (Hindex :
    findIndex (fun c => bool_decide (campaign_id c = campaign_id campaign))
              (app_campaigns w) = -1).
  { unfold findIndex. apply findIndex_from_absent.
    eapply Forall_impl; [exact Habsent|]. intros c Hc. simpl.
    now apply bool_decide_eq_false_2. }
  rewrite Hindex, array_splice_last. simpl. split.
  - intros init last ->. rewrite length_app. simpl.
    replace (length init + 1 - 1)%nat with (length init) by lia.
    apply take_app_length.
  - intros ->. reflexivity.
Qed.

Lemma delete_of_unlisted_drops_last_witness :
  items (app_campaigns
    (snd (ClusterCampaignManager.delete (sample_campaign "z" 10 0 view)
            (world_of sample_pool)))) =
    [sample_campaign "a" 10 0 view; sample_campaign "b" 10 0 view].
Proof.
  destruct (delete_of_unlisted_drops_last (sample_campaign "z" 10 0 view)
              (world_of sample_pool)) as [Hlast _].
  - repeat constructor; discriminate.
  - apply (Hlast [sample_campaign "a" 10 0 view; sample_campaign "b" 10 0 view]
                 (sample_campaign "c" 80 0 view)).
    reflexivity.
Defined.

(** ** Loading *)

Lemma emptied_items (arr : JsArray DatabaseCampaign) :
  items (if bool_decide (0 < length (items arr))%nat then array_empty else arr) = [].
Proof.
  case_bool_decide as Hlen; [reflexivity|].
  destruct (items arr); [reflexivity | simpl in Hlen; lia].
Qed.

(** X14.  When the database answers with an error, [load] rejects with a
    database error for the collection ["campaigns"], and the in-memory
    list has already been emptied: whatever it held before, [pick] finds
    nothing afterwards.  The stored records are not touched. *)
Theorem load_failure_empties_list (response : SelectResponse) (w : World)
  (raw : string) :
  select_error response = Some raw ->
  let result := AppCampaignManager.load response w in
  fst result = Rejected "campaigns" raw /\
  items (app_campaigns (snd result)) = [] /\
  collection (snd result) = collection w /\
  forall db rand, fst (pick db rand (snd result)) = None.
Proof.
  intros Herror. cbv zeta. unfold AppCampaignManager.load. rewrite Herror.
  cbn [fst snd app_campaigns collection].
  split; [reflexivity|]. split; [apply emptied_items|]. split; [reflexivity|].
  intros db rand. rewrite pick_unfold. cbn [fst app_campaigns].
  rewrite emptied_items. reflexivity.
Qed.

Lemma load_failure_empties_list_witness :
  let result :=
    AppCampaignManager.load (mkSelect None (Some "connection refused"))
      (world_of sample_pool) in
  fst result = Rejected "campaigns" "connection refused" /\
  items (app_campaigns (snd result)) = [] /\
  fst (pick sample_viewer (Q2Qc 0) (snd result)) = None.
Proof.
  cbv zeta.
  destruct (load_failure_empties_list (mkSelect None (Some "connection refused"))
              (world_of sample_pool) "connection refused" eq_refl)
    as (Hrejected & Hitems & _ & Hpick).
  split; [exact Hrejected|]. split; [exact Hitems | apply Hpick].
Defined.

Lemma cache_fold_other (campaigns : list DatabaseCampaign) :
  forall (cache : gmap string DatabaseCampaign) (id : string),
    ~ In id (map campaign_id campaigns) ->
    fold_left (fun cache c => <[campaign_id c := c]> cache) campaigns cache !! id =
      cache !! id.
Proof.
  induction campaigns as [|c rest IH]; intros cache id Hid; simpl; [reflexivity|].
  rewrite IH by (intros Hin; apply Hid; now right).
  apply lookup_insert_ne. intros Heq. apply Hid. now left.
Qed.

Lemma cache_fold_loaded (campaigns : list DatabaseCampaign) :
  NoDup (map campaign_id campaigns) ->
  forall (cache : gmap string DatabaseCampaign) (c : DatabaseCampaign),
    In c campaigns ->
    fold_left (fun cache c => <[campaign_id c := c]> cache) campaigns cache
      !! campaign_id c = Some c.
Proof.
  induction campaigns as [|x rest IH]; intros Hnodup cache c Hin; [destruct Hin|].
  simpl in Hnodup. apply NoDup_cons in Hnodup as [Hfresh Hnodup]. simpl.
  destruct Hin as [-> | Hin].
  - rewrite cache_fold_other by (intros H; apply Hfresh; now apply list_elem_of_In).
    apply lookup_insert_eq.
  - now apply IH.
Qed.

(** X15.  When the database answers without an error, [load] resolves to
    the campaigns it was given and the in-memory list holds exactly them,
    in the same order; with no data it resolves to an empty list.  If the
    loaded ids are distinct, every loaded campaign is cached under its id,
    and records under other ids are kept. *)
Theorem load_success_fills_list (response : SelectResponse) (w : World)
  (campaigns : list DatabaseCampaign) :
  select_error response = None ->
  let result := AppCampaignManager.load response w in
  (select_data response = None ->
   fst result = Resolved [] /\ items (app_campaigns (snd result)) = []) /\
  (select_data response = Some campaigns ->
   fst result = Resolved campaigns /\
   items (app_campaigns (snd result)) = campaigns /\
   (NoDup (map campaign_id campaigns) ->
    forall c, In c campaigns ->
      collection (snd result) !! campaign_id c = Some c) /\
   (forall id, ~ In id (map campaign_id campaigns) ->
      collection (snd result) !! id = collection w !! id)).
Proof.
  intros Herror. cbv zeta. unfold AppCampaignManager.load. rewrite Herror.
  split.
  - intros ->. cbn [fst snd app_campaigns]. split; [reflexivity | apply emptied_items].
  - intros ->. destruct campaigns as [|c rest].
    + cbn [fst snd app_campaigns collection].
      split; [reflexivity|]. split; [apply emptied_items|].
      split; [intros _ c []|reflexivity].
    + cbn [fst snd app_campaigns collection items].
      split; [reflexivity|]. split; [reflexivity|]. split.
      * intros Hnodup x Hin. now apply cache_fold_loaded.
      * intros id Hid. now apply cache_fold_other.
Qed.

Lemma load_success_fills_list_witness :
  let result :=
    AppCampaignManager.load (mkSelect (Some sample_pool) None) (world_of []) in
  fst result = Resolved sample_pool /\
  items (app_campaigns (snd result)) = sample_pool /\
  collection (snd result) !! "b" = Some (sample_campaign "b" 10 0 view).
Proof.
  cbv zeta.
  destruct (load_success_fills_list (mkSelect (Some sample_pool) None) (world_of [])
              sample_pool eq_refl) as [_ H].
  destruct (H eq_refl) as (Hresolved & Hitems & Hcached & _).
  split; [exact Hresolved|]. split; [exact Hitems|].
  assert (Hnodup : NoDup (map campaign_id sample_pool))
    by (repeat (apply NoDup_cons; split;
                 [rewrite list_elem_of_In; simpl; intuition discriminate|]);
        apply NoDup_nil; exact I).
  apply (Hcached Hnodup (sample_campaign "b" 10 0 view)).
  right. now left.
Defined.

(** ** Aspect ratios *)

Lemma validRatio_parts (Number : string -> number) (ratio : string) (max : number)
  (sa sb : string) (rest : list string) :
  split_colon ratio = sa :: sb :: rest ->
  ImageManager.validRatio Number ratio max =
    if falsy_number (Some (Number sa)) || falsy_number (Some (Number sb)) ||
       isNaN (Some (Number sa)) || isNaN (Some (Number sb))
    then None
    else if nle (Number sa) (num 0) || nle (Number sb) (num 0) ||
            ngt (ndiv (Number sa) (Number sb)) max ||
            ngt (ndiv (Number sb) (Number sa)) max
         then None
         else Some (mkRatio (Number sa) (Number sb)).
Proof. intros Hsplit. unfold ImageManager.validRatio. rewrite Hsplit. reflexivity. Qed.

Lemma Qc_ltb_false (a b : Qc) : Qc_ltb a b = false <-> (b ≤ a)%Qc.
Proof.
  unfold Qc_ltb. rewrite bool_decide_eq_false. split.
  - apply Qcnot_lt_le.
  - intros Hle Hlt. exact (Qcle_not_lt _ _ Hle Hlt).
Qed.

Lemma Qc_leb_false (a b : Qc) : Qc_leb a b = false <-> (b < a)%Qc.
Proof.
  unfold Qc_leb. rewrite bool_decide_eq_false. split.
  - apply Qcnot_le_lt.
  - intros Hlt Hle. exact (Qcle_not_lt _ _ Hle Hlt).
Qed.

(** X16.  For a ratio string whose first two parts convert to finite
    numbers [x] and [y], [validRatio] returns the pair [x], [y] exactly
    when both are positive and neither [x / y > max] nor [y / x > max]
    holds, and [null] otherwise.  For a finite [max] that is [x / y <=
    max] and [y / x <= max]; for [max = NaN] no comparison holds and every
    pair of positive numbers is accepted.  Parts after the second are not
    looked at. *)
Theorem validRatio_accepts_iff (Number : string -> number) (ratio : string)
  (sa sb : string) (rest : list string) (x y : Qc) (max : number) :
  split_colon ratio = sa :: sb :: rest ->
  Number sa = Fin x -> Number sb = Fin y ->
  (ImageManager.validRatio Number ratio max = Some (mkRatio (Fin x) (Fin y)) <->
   (0 < x)%Qc /\ (0 < y)%Qc /\
   ngt (Fin (x / y)%Qc) max = false /\ ngt (Fin (y / x)%Qc) max = false) /\
  (ImageManager.validRatio Number ratio max = None \/
   ImageManager.validRatio Number ratio max = Some (mkRatio (Fin x) (Fin y))) /\
  (forall m : Qc, max = Fin m ->
     (ngt (Fin (x / y)%Qc) max = false <-> (x / y ≤ m)%Qc) /\
     (ngt (Fin (y / x)%Qc) max = false <-> (y / x ≤ m)%Qc)) /\
  (max = NaN ->
   (ImageManager.validRatio Number ratio max = Some (mkRatio (Fin x) (Fin y)) <->
    (0 < x)%Qc /\ (0 < y)%Qc)).
Proof.
  intros Hsplit Ha Hb.
  assert (Hmain :
    (ImageManager.validRatio Number ratio max = Some (mkRatio (Fin x) (Fin y)) <->
     (0 < x)%Qc /\ (0 < y)%Qc /\
     ngt (Fin (x / y)%Qc) max = false /\ ngt (Fin (y / x)%Qc) max = false) /\
    (ImageManager.validRatio Number ratio max = None \/
     ImageManager.validRatio Number ratio max = Some (mkRatio (Fin x) (Fin y)))).
  { rewrite (validRatio_parts Number ratio max sa sb rest Hsplit), Ha, Hb.
    cbn [falsy_number isNaN orb]. rewrite !orb_false_r.
    unfold num. rewrite Z2Qc_inj_0. cbn [nle].
    destruct (Qc_eqb x 0) eqn:Hx0.
    { apply Qc_eqb_true in Hx0. subst x. cbn [orb]. split; [|now left].
      split; [discriminate|]. intros [H _]. exfalso.
      exact (Qclt_not_eq _ _ H eq_refl). }
    destruct (Qc_eqb y 0) eqn:Hy0.
    { apply Qc_eqb_true in Hy0. subst y. cbn [orb]. split; [|now left].
      split; [discriminate|]. intros (_ & H & _). exfalso.
      exact (Qclt_not_eq _ _ H eq_refl). }
    cbn [orb]. unfold ndiv. rewrite Hx0, Hy0.
    destruct (Qc_leb x 0) eqn:Hx.
    { cbn [orb]. split; [|now left]. split; [discriminate|].
      intros [H _]. apply Qc_leb_true in Hx. exfalso.
      exact (Qcle_not_lt _ _ Hx H). }
    destruct (Qc_leb y 0) eqn:Hy.
    { cbn [orb]. split; [|now left]. split; [discriminate|].
      intros (_ & H & _). apply Qc_leb_true in Hy. exfalso.
      exact (Qcle_not_lt _ _ Hy H). }
    apply Qc_leb_false in Hx, Hy. cbn [orb].
    destruct (ngt (Fin (x / y)%Qc) max) eqn:Hxy.
    { cbn [orb]. split; [|now left]. split; [discriminate|].
      intros (_ & _ & H & _). discriminate H. }
    destruct (ngt (Fin (y / x)%Qc) max) eqn:Hyx.
    { cbn [orb]. split; [|now left]. split; [discriminate|].
      intros (_ & _ & _ & H). discriminate H. }
    split; [|now right].
    split; [intros _; repeat split; assumption | reflexivity]. }
  destruct Hmain as [Hiff Hcases].
  split; [exact Hiff|]. split; [exact Hcases|]. split.
  - intros m ->. unfold ngt. cbn [nlt]. split; apply Qc_ltb_false.
  - intros ->. rewrite Hiff. unfold ngt. cbn [nlt]. tauto.
Qed.

Lemma validRatio_accepts_iff_witness :
  ImageManager.validRatio sample_Number "16:9" (num 3) =
    Some (mkRatio (Fin (Qc_of_Z 16)) (Fin (Qc_of_Z 9))) /\
  ImageManager.validRatio sample_Number "16:4" (num 3) = None /\
  ImageManager.validRatio sample_Number "100:1" NaN =
    Some (mkRatio (Fin (Qc_of_Z 100)) (Fin (Qc_of_Z 1))).
Proof.
  split; [|split].
  - destruct (validRatio_accepts_iff sample_Number "16:9" "16" "9" []
                (Qc_of_Z 16) (Qc_of_Z 9) (num 3) eq_refl eq_refl eq_refl)
      as (Hiff & _).
    apply Hiff.
    split; [apply Qc_ltb_true; vm_compute; reflexivity|].
    split; [apply Qc_ltb_true; vm_compute; reflexivity|].
    split; vm_compute; reflexivity.
  - destruct (validRatio_accepts_iff sample_Number "16:4" "16" "4" []
                (Qc_of_Z 16) (Qc_of_Z 4) (num 3) eq_refl eq_refl eq_refl)
      as (Hiff & [Hnone | Hsome] & _); [exact Hnone|].
    apply Hiff in Hsome as (_ & _ & Hgt & _).
    vm_compute in Hgt. discriminate Hgt.
  - destruct (validRatio_accepts_iff sample_Number "100:1" "100" "1" []
                (Qc_of_Z 100) (Qc_of_Z 1) NaN eq_refl eq_refl eq_refl)
      as (_ & _ & _ & Hnan).
    apply (Hnan eq_refl).
    split; apply Qc_ltb_true; vm_compute; reflexivity.
Defined.

Lemma split_colon_nonempty (s : string) : split_colon s <> [].
Proof.
  destruct s as [|c rest]; simpl; [discriminate|].
  destruct (Ascii.eqb c colon); [discriminate|].
  destruct (split_colon rest); discriminate.
Qed.

Lemma split_colon_without_colon (s : string) :
  ~ In colon (String.list_ascii_of_string s) -> split_colon s = [s].
Proof.
  induction s as [|c rest IH]; intros Hno; simpl; [reflexivity|].
  simpl in Hno.
  destruct (Ascii.eqb c colon) eqn:Hc.
  - apply Ascii.eqb_eq in Hc. exfalso. apply Hno. left. now symmetry.
  - rewrite IH by (intros Hin; apply Hno; now right). reflexivity.
Qed.

(** X17.  A ratio string without a colon has no second part, so
    [validRatio] rejects it whatever [Number] makes of it and whatever
    [max] is. *)
Theorem validRatio_needs_colon (Number : string -> number) (ratio : string)
  (max : number) :
  ~ In colon (String.list_ascii_of_string ratio) ->
  ImageManager.validRatio Number ratio max = None.
Proof.
  intros Hno. unfold ImageManager.validRatio.
  rewrite (split_colon_without_colon ratio Hno). simpl.
  now rewrite orb_true_r.
Qed.

Lemma validRatio_needs_colon_witness :
  ImageManager.validRatio sample_Number "16" (num 3) = None.
Proof.
  apply (validRatio_needs_colon sample_Number "16" (num 3)).
  vm_compute. intros [H | [H | []]]; discriminate H.
Defined.

(** X18.  The range check lets an infinite ratio through: when both parts
    convert to [Infinity], both quotients are [NaN], no comparison with
    [NaN] holds, and [validRatio] returns the pair of infinities for every
    [max]. *)
Theorem validRatio_accepts_infinities (Number : string -> number) (ratio : string)
  (sa sb : string) (rest : list string) (max : number) :
  split_colon ratio = sa :: sb :: rest ->
  Number sa = PosInf -> Number sb = PosInf ->
  ImageManager.validRatio Number ratio max = Some (mkRatio PosInf PosInf).
Proof.
  intros Hsplit Ha Hb.
  rewrite (validRatio_parts Number ratio max sa sb rest Hsplit), Ha, Hb.
  simpl. destruct max; reflexivity.
Qed.

Lemma validRatio_accepts_infinities_witness :
  ImageManager.validRatio sample_Number "Infinity:Infinity" (num 3) =
    Some (mkRatio PosInf PosInf).
Proof.
  apply (validRatio_accepts_infinities sample_Number "Infinity:Infinity"
           "Infinity" "Infinity" [] (num 3)); reflexivity.
Defined.

(** ** Image models *)

(** X20.  [get(id)] throws exactly when no configuration has this id.
    Otherwise it returns the model built from the first configuration
    with the id: same id, name, description and path, with the tags and
    the body of the configuration, empty when it has none. *)
Theorem get_finds_configured_model (configs : list ImageConfigModel) (id : string) :
  (ImageModelManager.get (ImageModelManager.construct configs) id = None <->
   Forall (fun m => config_id m <> id) configs) /\
  (forall before m after,
     configs = before ++ m :: after ->
     Forall (fun m' => config_id m' <> id) before ->
     config_id m = id ->
     ImageModelManager.get (ImageModelManager.construct configs) id =
       Some (ImageModelManager.construct_model m) /\
     model_id (ImageModelManager.construct_model m) = id /\
     model_tags (ImageModelManager.construct_model m) = default [] (config_tags m) /\
     model_body (ImageModelManager.construct_model m) =
       default (mkBody None None None) (config_body m)).
Proof.
  unfold ImageModelManager.get, ImageModelManager.construct. split.
  - induction configs as [|m rest IH]; simpl.
    + split; [constructor | reflexivity].
    + case_bool_decide as Hid; split.
      * discriminate.
      * intros H. apply Forall_cons in H as [Hne _]. contradiction.
      * intros H. constructor; [exact Hid | now apply IH].
      * intros H. apply Forall_cons in H as [_ Hrest]. now apply IH.
  - intros before m after -> Hbefore Hm.
    split; [|repeat split; exact Hm].
    induction Hbefore as [|m' rest' Hne _ IH]; simpl.
    + now rewrite bool_decide_eq_true_2.
    + rewrite bool_decide_eq_false_2 by exact Hne. exact IH.
Qed.

Lemma get_finds_configured_model_witness :
  ImageModelManager.get (ImageModelManager.construct ImageConfigModels) "dall-e" = None /\
  model_name <$>
    ImageModelManager.get (ImageModelManager.construct ImageConfigModels) "ue5" =
    Some "Project Unreal Engine 5".
Proof.
  split.
  - apply (get_finds_configured_model ImageConfigModels "dall-e").
    repeat constructor; discriminate.
  - destruct (get_finds_configured_model ImageConfigModels "ue5") as [_ H].
    destruct (H (take 2 ImageConfigModels)
                (mkConfigModel "Project Unreal Engine 5" "ue5"
                   "Trained to look like Unreal Engine 5 renders"
                   None None path_sh (Some (mkBody (Some "stable_diffusion") None None)))
                (drop 3 ImageConfigModels)) as [Hget _].
    + reflexivity.
    + repeat constructor; discriminate.
    + reflexivity.
    + rewrite Hget. reflexivity.
Defined.

(** ** Describing an image *)

Section Describe.

Variable fetchBuffer : string -> option ImageBuffer.
Variable md5 : ImageBuffer -> string.
Variable fetchDescription : string -> option DatabaseDescription.
Variable detectText : string -> option (option ImageOCRResult).
Variable blip2 : string -> option (number * list string).
Variable updateImageDescription : string -> DatabaseDescription -> bool.
Variable now : string.

Local Abbreviation describe :=
  (ImageDescriptionManager.describe fetchBuffer md5 fetchDescription detectText
     blip2 updateImageDescription now).

(** X21.  Unless [cached] is switched off, an image whose hash has a
    stored description is answered from the store: the stored entry comes
    back flagged [cached] with no cost, and neither OCR nor BLIP is asked
    and nothing is saved. *)
Theorem describe_uses_stored_description (options : ImageDescriptionOptions)
  (buffer : ImageBuffer) (entry : DatabaseDescription) :
  describe_cached options <> Some false ->
  describe_buffer options = Some buffer ->
  fetchDescription (md5 buffer) = Some entry ->
  describe options =
    ([FetchDescription (md5 buffer)], Some (mkDescribed entry true None)).
Proof.
  intros Hcached Hbuffer Hentry.
  unfold ImageDescriptionManager.describe. rewrite Hbuffer.
  assert (Hdefault : default true (describe_cached options) = true).
  { destruct (describe_cached options) as [[|]|]; [reflexivity | | reflexivity].
    now destruct Hcached. }
  rewrite Hdefault, Hentry. reflexivity.
Qed.

(** X22.  Whenever [describe] resolves, the result is flagged [cached]
    exactly when it carries no cost, and exactly when no BLIP request was
    made; a result that is not flagged made one BLIP request, for the
    input's URL, carries the hash of the image buffer (the one given, or
    else the one fetched) as its id, and costs [duration * 0.0004]. *)
Theorem describe_cost_matches_requests (options : ImageDescriptionOptions)
  (result : Described) :
  snd (describe options) = Some result ->
  let calls := fst (describe options) in
  (described_cached result = true <-> described_cost result = None) /\
  (described_cached result = true <-> List.filter paid_request calls = []) /\
  (described_cached result = false ->
   exists buffer,
     match describe_buffer options with
     | Some given => Some given
     | None => fetchBuffer (attachment_url (describe_input options))
     end = Some buffer /\
     List.filter paid_request calls =
       [Blip2 (attachment_url (describe_input options))] /\
     description_id (described result) = md5 buffer /\
     described_cost result =
       Some (nmul (description_duration (described result))
                  (Fin (Q2Qc (4 # 10000))))).
Proof.
  unfold ImageDescriptionManager.describe.
  destruct (describe_buffer options) as [given|];
    [|destruct (fetchBuffer (attachment_url (describe_input options))) as [fetched|]];
    try (simpl; discriminate).
  all: destruct (default true (describe_cached options));
    [destruct (fetchDescription _) as [entry|]|].
  all: try (simpl; intros [= <-]; simpl;
            repeat split; try discriminate; try reflexivity; fail).
  all: destruct (blip2 _) as [[duration [|caption captions]]|];
    try (simpl; discriminate).
  all: destruct (updateImageDescription _ _); try (simpl; discriminate).
  all: simpl; intros [= <-]; simpl.
  all: repeat split; try discriminate; try reflexivity.
  all: intros _; eexists; repeat split.
Qed.

End Describe.

Lemma describe_uses_stored_description_witness :
  sample_describe (mkDescribeOptions sample_attachment (Some sample_buffer) None) =
    ([FetchDescription "md5-of-PNG-bytes"],
     Some (mkDescribed sample_entry true None)).
Proof.
  apply (describe_uses_stored_description no_buffer sample_md5 sample_fetchDescription
           no_text sample_blip2 update_resolves "2023-07-02T00:00:00.000Z"
           (mkDescribeOptions sample_attachment (Some sample_buffer) None)
           sample_buffer sample_entry).
  - discriminate.
  - reflexivity.
  - reflexivity.
Defined.

Lemma describe_cost_matches_requests_witness :
  let options := mkDescribeOptions sample_attachment (Some sample_buffer) (Some false) in
  exists result,
    snd (sample_describe options) = Some result /\
    described_cached result = false /\
    List.filter paid_request (fst (sample_describe options)) =
      [Blip2 "https://cdn.example.org/cat.png"] /\
    described_cost result =
      Some (nmul (description_duration (described result)) (Fin (Q2Qc (4 # 10000)))).
Proof.
  cbv zeta.
  set (options := mkDescribeOptions sample_attachment (Some sample_buffer) (Some false)).
  set (result :=
    mkDescribed
      (mkDescription "md5-of-PNG-bytes" (num 2500) "2023-07-02T00:00:00.000Z"
         (mkDescriptionResult "a cat on a sofa" None))
      false (Some (nmul (num 2500) (Fin (Q2Qc (4 # 10000)))))).
  assert (Hresult : snd (sample_describe options) = Some result) by reflexivity.
  destruct (describe_cost_matches_requests no_buffer sample_md5 sample_fetchDescription
              no_text sample_blip2 update_resolves "2023-07-02T00:00:00.000Z"
              options result Hresult) as (_ & _ & Hfresh).
  destruct (Hfresh eq_refl) as (buffer & _ & Hcalls & _ & Hcost).
  exists result. split; [exact Hresult|]. split; [reflexivity|].
  split; [reflexivity | exact Hcost].
Defined.

(** ** More on the link button *)

Section LinkButtonEdges.

Variable hostname : string -> option string.
Variable command_handleInteraction :
  InteractionHandlerRunOptions -> Async InteractionHandlerResponse.

(** X23.  A click on a link button whose campaign id is unknown gets no
    reply and changes nothing: no record is written, the in-memory list
    and the metrics are as before. *)
Theorem handleInteraction_unknown_campaign (options : InteractionHandlerRunOptions)
  (w : World) (id : string) :
  run_action options = "link" ->
  run_raw options !! 1%nat = Some id ->
  collection w !! id = None ->
  handleInteraction hostname command_handleInteraction options w = (NoResponse, w).
Proof.
  intros Haction Hraw Hunknown.
  unfold handleInteraction. rewrite Haction. simpl. rewrite Hraw.
  unfold bind, get, fetchFromCacheOrDatabase. now rewrite Hunknown.
Qed.

(** X24.  The debit comes before the link is parsed: when the campaign's
    link is not a URL the handler throws and no reply is built, but a
    campaign billed per click has already been charged [cost / 1000]. *)
Theorem handleInteraction_debits_before_parsing (options : InteractionHandlerRunOptions)
  (w : World) (c : DatabaseCampaign) :
  run_action options = "link" ->
  run_raw options !! 1%nat = Some (campaign_id c) ->
  collection w !! campaign_id c = Some c ->
  budget_type (campaign_budget c) = click ->
  hostname (campaign_link c) = None ->
  let result := handleInteraction hostname command_handleInteraction options w in
  fst result = Thrown /\
  budget_used <$> (campaign_budget <$> collection (snd result) !! campaign_id c) =
    Some (nadd (budget_used (campaign_budget c))
               (ndiv (budget_cost (campaign_budget c)) (num 1000))).
Proof.
  intros Haction Hraw Hstored Htype Hlink. cbv zeta.
  unfold handleInteraction. rewrite Haction. simpl. rewrite Hraw.
  unfold bind, get, fetchFromCacheOrDatabase. rewrite Hstored.
  unfold incrementUsage.
  rewrite bool_decide_eq_false_2 by (intros Hne; exact (Hne Htype)).
  rewrite update_unfold. cbn [spread with_budget changes_link default campaign_link].
  rewrite Hlink. cbn [resolve fst snd collection].
  split; [reflexivity|]. rewrite lookup_insert_eq. reflexivity.
Qed.

End LinkButtonEdges.

Lemma handleInteraction_unknown_campaign_witness :
  handleInteraction sample_hostname no_command (link_options "missing")
    (world_of sample_pool) = (NoResponse, world_of sample_pool).
Proof.
  apply (handleInteraction_unknown_campaign sample_hostname no_command
           (link_options "missing") (world_of sample_pool) "missing");
    reflexivity.
Defined.

Lemma handleInteraction_debits_before_parsing_witness :
  let result :=
    handleInteraction sample_hostname no_command (link_options "k")
      (world_of [broken_campaign]) in
  fst result = Thrown /\
  budget_used <$> (campaign_budget <$> collection (snd result) !! "k") =
    Some (nadd (num 0) (ndiv (num 500) (num 1000))).
Proof.
  cbv zeta.
  apply (handleInteraction_debits_before_parsing sample_hostname no_command
           (link_options "k") (world_of [broken_campaign]) broken_campaign);
    reflexivity.
Defined.

(** ** Creating, then deleting *)

(** X25.  When no listed campaign has the new id, [create] followed by
    [delete] of the created campaign gives the in-memory list back as it
    was, and the id is stored no more. *)
Theorem create_then_delete (id now : string) (options : CreateCampaignOptions)
  (w : World) :
  Forall (fun c => campaign_id c <> id) (items (app_campaigns w)) ->
  let created := create id now options w in
  let w' := snd (ClusterCampaignManager.delete (fst created) (snd created)) in
  items (app_campaigns w') = items (app_campaigns w) /\
  collection w' !! id = None.
Proof.
  intros Hfresh. cbv zeta. rewrite delete_unfold.
  set (c0 := fst (create id now options w)).
  assert (Hid : campaign_id c0 = id) by reflexivity.
  assert (Hsnd : snd (create id now options w) =
                 mkWorld (<[id := c0]> (collection w))
                         (array_push (app_campaigns w) c0) (metrics w))
    by reflexivity.
  rewrite Hsnd. cbn [snd app_campaigns collection]. unfold array_push.
  destruct (app_campaigns w) as [elements props]. cbn [items properties] in *.
  rewrite (findIndex_first c0 elements [] c0 props);
    [|rewrite Hid; exact Hfresh|reflexivity].
  rewrite array_splice_one. cbn [items]. rewrite Hid.
  split; [apply app_nil_r | apply lookup_delete_eq].
Qed.

Lemma create_then_delete_witness :
  let created := create "7f1c" "2023-07-01T00:00:00.000Z" imported_draft
                   (world_of sample_pool) in
  let w' := snd (ClusterCampaignManager.delete (fst created) (snd created)) in
  items (app_campaigns w') = sample_pool /\ collection w' !! "7f1c" = None.
Proof.
  cbv zeta.
  apply (create_then_delete "7f1c" "2023-07-01T00:00:00.000Z" imported_draft
           (world_of sample_pool)).
  repeat constructor; discriminate.
Defined.
